(** * useFaceLandmarkDetector: calibration and smile-degree prediction

    A shallow embedding of [src/robot_ui/src/utils/useDetector.ts].

    - A JavaScript [number] is an IEEE 754 binary64 value: Rocq's primitive
      [float].  Division by zero, [Infinity] and [NaN] are therefore the
      real ones.
    - The hook body is re-run at every render; each function it defines is
      a closure over the [const]s of the render that created it.  A
      function of the hook is modelled as a function of that render
      ([Render]: the values of the [useState] cells and of the store
      selectors it can read) acting on the [World], which holds everything
      that outlives a render: the module-level [let] variables, the cells
      as last set, the store, the two refs and the host (animation-frame
      queue, timers, console, detector calls).
    - Which render's closure React keeps for a [useCallback] and when it
      runs an effect are React's business, not the hook's: statements about
      a function hold for every render it may close over, and runs of the
      hook ([reachable]) let every call come from any earlier render.
    - [activateWebcamStream] only wires the media stream to the video
      element and is left out. *)

From Stdlib Require Import Floats.
From stdpp Require Import base strings gmap list.

Open Scope float_scope.

(** ** JavaScript numbers *)

Module JS.

(** A JavaScript [number]. *)
Abbreviation number := float.

(** [a !== b] on two numbers: IEEE inequality ([NaN !== NaN] holds). *)
Definition strict_neq (a b : number) : bool := negb (a =? b).

(** [Math.max(a, b)]: [NaN] if either is, and [+0] above [-0]. *)
Definition Math_max (a b : number) : number :=
  if is_nan a || is_nan b then nan
  else if a <? b then b
  else if b <? a then a
  else if get_sign a then b else a.

(** [Math.min(a, b)]: [NaN] if either is, and [-0] below [+0]. *)
Definition Math_min (a b : number) : number :=
  if is_nan a || is_nan b then nan
  else if a <? b then a
  else if b <? a then b
  else if get_sign a then a else b.

(** ToNumber of a property read: a missing property is [undefined],
    which arithmetic turns into [NaN]. *)
Definition to_number (v : option number) : number :=
  match v with Some x => x | None => nan end.

(** [xs.length] as a number (array lengths are below [2^32]). *)
Definition length_number {A} (xs : list A) : number :=
  of_uint63 (Uint63.of_Z (Z.of_nat (length xs))).

(** [xs.reduce((acc, num) => acc + num, 0)] *)
Definition sum (xs : list number) : number :=
  fold_left (fun acc num => acc + num) xs 0.

Definition finite (x : number) : bool :=
  negb (is_nan x) && negb (is_infinity x).

End JS.

Import JS.

(** ** Data model *)

Inductive CalibrationStatus := NOT_READY | READY | DOING | DONE.

#[global] Instance CalibrationStatus_eq_dec : EqDecision CalibrationStatus.
Proof. solve_decision. Defined.

(** Modelled from the spec: [CalibrationMode] ([@/types/CalibrationMode]) is
    not part of the sources; the spec names the two passes, neutral and
    smiling.  The code only tests for [NEUTRAL]. *)
Inductive CalibrationMode := NEUTRAL | SMILE.

#[global] Instance CalibrationMode_eq_dec : EqDecision CalibrationMode.
Proof. solve_decision. Defined.

(** The four categories the hook spells out as object keys. *)
Inductive BlendName :=
  MouthPressLeft | MouthPressRight | MouthSmileLeft | MouthSmileRight.

(** An object literal with exactly these four keys, in source order:
    [FaceLandmarkerBlendValues] at [number], [DuringCalibrationBlendValues]
    at [number[]]. *)
Record Blend (A : Type) := mkBlend {
  mouthPressLeft : A;
  mouthPressRight : A;
  mouthSmileLeft : A;
  mouthSmileRight : A;
}.
Arguments mkBlend {A}.
Arguments mouthPressLeft {A}.
Arguments mouthPressRight {A}.
Arguments mouthSmileLeft {A}.
Arguments mouthSmileRight {A}.

Definition FaceLandmarkerBlendValues := Blend number.
Definition DuringCalibrationBlendValues := Blend (list number).

Definition key_name (k : BlendName) : string :=
  match k with
  | MouthPressLeft => "mouthPressLeft"
  | MouthPressRight => "mouthPressRight"
  | MouthSmileLeft => "mouthSmileLeft"
  | MouthSmileRight => "mouthSmileRight"
  end.

(** The own key of such an object that a property name denotes, if any. *)
Definition own_key (name : string) : option BlendName :=
  if decide (name = "mouthPressLeft") then Some MouthPressLeft
  else if decide (name = "mouthPressRight") then Some MouthPressRight
  else if decide (name = "mouthSmileLeft") then Some MouthSmileLeft
  else if decide (name = "mouthSmileRight") then Some MouthSmileRight
  else None.

(** [for (key in o)] on such an object visits its keys in creation order. *)
Definition keys : list BlendName :=
  [MouthPressLeft; MouthPressRight; MouthSmileLeft; MouthSmileRight].

Definition get {A} (o : Blend A) (k : BlendName) : A :=
  match k with
  | MouthPressLeft => mouthPressLeft o
  | MouthPressRight => mouthPressRight o
  | MouthSmileLeft => mouthSmileLeft o
  | MouthSmileRight => mouthSmileRight o
  end.

Definition set {A} (o : Blend A) (k : BlendName) (v : A) : Blend A :=
  match k with
  | MouthPressLeft =>
      mkBlend v (mouthPressRight o) (mouthSmileLeft o) (mouthSmileRight o)
  | MouthPressRight =>
      mkBlend (mouthPressLeft o) v (mouthSmileLeft o) (mouthSmileRight o)
  | MouthSmileLeft =>
      mkBlend (mouthPressLeft o) (mouthPressRight o) v (mouthSmileRight o)
  | MouthSmileRight =>
      mkBlend (mouthPressLeft o) (mouthPressRight o) (mouthSmileLeft o) v
  end.

(** One entry of [faceBlendshapes[i].categories]. *)
Record Category := mkCategory {
  categoryName : string;
  score : number;
}.

(** [FaceLandmarkerResult.faceBlendshapes]: one category array per face. *)
Definition FaceBlendshapes := list (list Category).

(** A calibration profile as the store holds it: an object read by
    property name. *)
Abbreviation Profile := (gmap string number).

(** An attached [HTMLVideoElement], by identity. *)
Definition HTMLVideoElement := nat.

(** ** What outlives a render *)

(** The module-level [let] variables ([calibartionStarted] is never read
    or written and is left out). *)
Record Globals := mkGlobals {
  lastVideoTime : number;
  smileDegrees : list number;
  calibrationBlendValues : DuringCalibrationBlendValues;
}.

(** The [useState] cells the hook reads or sets ([predictionFrames] and
    [mood] have no setter call and are left out). *)
Record State := mkState {
  faceLandmarker : bool;  (* whether the cell holds a landmarker *)
  isInitialized : bool;
  video : option HTMLVideoElement;
  webcamRunning : bool;
  webcamEnabled : bool;
  calibrationFrames : number;
  calibrationStatus : CalibrationStatus;
  predictionStatus : CalibrationStatus;
  smileDegree : number;
}.

(** The calibration store, as far as the hook selects from it. *)
Record Store := mkStore {
  blendValues : Profile;
  smileBlendValues : Profile;
  status : CalibrationMode;
}.

(** A render: the cells and store selections its closures captured. *)
Record Render := mkRender {
  state : State;
  selected : Store;
}.

Definition blendValuesFromCalibration (r : Render) : Profile :=
  blendValues (selected r).
Definition smileBlendValuesFromCalibration (r : Render) : Profile :=
  smileBlendValues (selected r).
Definition calibrationStatusFromStore (r : Render) : CalibrationMode :=
  status (selected r).

(** A closure handed to the host, with the render it closes over. *)
Inductive Callback :=
  | CbDoCalibration (r : Render)
  | CbPredictWebcam (r : Render)
  | CbStopCalibration (r : Render).

Record Refs := mkRefs {
  calibrateRequestRef : option nat;
  predictRequestRef : option nat;
}.

(** The host: pending animation-frame requests with their handles (the
    handles are positive and never reused), pending timers with their
    delay, the console, and the calls made to [detectForVideo]. *)
Record Host := mkHost {
  frames : list (nat * Callback);
  nextHandle : nat;
  timeouts : list (Callback * number);
  console : list string;
  detectCalls : list (HTMLVideoElement * number);
}.

Record World := mkWorld {
  globals : Globals;
  cells : State;
  store : Store;
  refs : Refs;
  host : Host;
}.

(** What a sampling callback finds when it runs: whether
    [faceLandmarkerService.faceLandmarker] is set, [performance.now()],
    the [currentTime] of the video element it holds, and the blendshapes
    the detector returns if it is asked. *)
Record Tick := mkTick {
  serviceLandmarker : bool;
  now : number;
  currentTime : number;
  detected : FaceBlendshapes;
}.

(** ** The monad of the hook's functions: state, and thrown exceptions *)

Inductive Completion (A : Type) :=
  | Normal (a : A)
  | Throw (error : string).
Arguments Normal {A}.
Arguments Throw {A}.

Definition M (A : Type) : Type := World -> Completion A * World.

Definition ret {A} (a : A) : M A := fun w => (Normal a, w).
Definition throw {A} (error : string) : M A := fun w => (Throw error, w).
Definition bind {A B} (m : M A) (f : A -> M B) : M B :=
  fun w =>
    match m w with
    | (Normal a, w') => f a w'
    | (Throw e, w') => (Throw e, w')
    end.
Definition exec {A} (m : M A) (w : World) : World := (m w).2.
Definition eval {A} (m : M A) (w : World) : Completion A := (m w).1.

Declare Scope hook_scope.
Delimit Scope hook_scope with hook.
Notation "x <- m ;; k" := (bind m (fun x => k))
  (at level 100, m at next level, right associativity) : hook_scope.
Notation "m ;; k" := (bind m (fun _ => k))
  (at level 100, right associativity) : hook_scope.
Open Scope hook_scope.

Definition modify (f : World -> World) : M unit := fun w => (Normal tt, f w).
Definition on_globals (f : Globals -> Globals) : M unit :=
  modify (fun w => mkWorld (f (globals w)) (cells w) (store w) (refs w) (host w)).
Definition on_cells (f : State -> State) : M unit :=
  modify (fun w => mkWorld (globals w) (f (cells w)) (store w) (refs w) (host w)).
Definition on_store (f : Store -> Store) : M unit :=
  modify (fun w => mkWorld (globals w) (cells w) (f (store w)) (refs w) (host w)).
Definition on_refs (f : Refs -> Refs) : M unit :=
  modify (fun w => mkWorld (globals w) (cells w) (store w) (f (refs w)) (host w)).
Definition on_host (f : Host -> Host) : M unit :=
  modify (fun w => mkWorld (globals w) (cells w) (store w) (refs w) (f (host w))).
Definition read {A} (f : World -> A) : M A := fun w => (Normal (f w), w).

(** *** Module-level variables *)

Definition assign_lastVideoTime (t : number) : M unit :=
  on_globals (fun g => mkGlobals t (smileDegrees g) (calibrationBlendValues g)).
Definition assign_smileDegrees (l : list number) : M unit :=
  on_globals (fun g => mkGlobals (lastVideoTime g) l (calibrationBlendValues g)).
Definition assign_calibrationBlendValues (o : DuringCalibrationBlendValues) : M unit :=
  on_globals (fun g => mkGlobals (lastVideoTime g) (smileDegrees g) o).

(** *** [useState] setters *)

Definition setFaceLandmarker (b : bool) : M unit :=
  on_cells (fun s => mkState b (isInitialized s) (video s) (webcamRunning s)
    (webcamEnabled s) (calibrationFrames s) (calibrationStatus s)
    (predictionStatus s) (smileDegree s)).
Definition setIsInitialized (b : bool) : M unit :=
  on_cells (fun s => mkState (faceLandmarker s) b (video s) (webcamRunning s)
    (webcamEnabled s) (calibrationFrames s) (calibrationStatus s)
    (predictionStatus s) (smileDegree s)).
Definition setVideo (v : option HTMLVideoElement) : M unit :=
  on_cells (fun s => mkState (faceLandmarker s) (isInitialized s) v
    (webcamRunning s) (webcamEnabled s) (calibrationFrames s)
    (calibrationStatus s) (predictionStatus s) (smileDegree s)).
Definition setWebcamRunning (b : bool) : M unit :=
  on_cells (fun s => mkState (faceLandmarker s) (isInitialized s) (video s) b
    (webcamEnabled s) (calibrationFrames s) (calibrationStatus s)
    (predictionStatus s) (smileDegree s)).
Definition setWebcamEnabled (b : bool) : M unit :=
  on_cells (fun s => mkState (faceLandmarker s) (isInitialized s) (video s)
    (webcamRunning s) b (calibrationFrames s) (calibrationStatus s)
    (predictionStatus s) (smileDegree s)).
Definition setCalibrationFrames (n : number) : M unit :=
  on_cells (fun s => mkState (faceLandmarker s) (isInitialized s) (video s)
    (webcamRunning s) (webcamEnabled s) n (calibrationStatus s)
    (predictionStatus s) (smileDegree s)).
Definition setCalibrationStatus (c : CalibrationStatus) : M unit :=
  on_cells (fun s => mkState (faceLandmarker s) (isInitialized s) (video s)
    (webcamRunning s) (webcamEnabled s) (calibrationFrames s) c
    (predictionStatus s) (smileDegree s)).
Definition setPredictionStatus (c : CalibrationStatus) : M unit :=
  on_cells (fun s => mkState (faceLandmarker s) (isInitialized s) (video s)
    (webcamRunning s) (webcamEnabled s) (calibrationFrames s)
    (calibrationStatus s) c (smileDegree s)).
Definition setSmileDegree (d : number) : M unit :=
  on_cells (fun s => mkState (faceLandmarker s) (isInitialized s) (video s)
    (webcamRunning s) (webcamEnabled s) (calibrationFrames s)
    (calibrationStatus s) (predictionStatus s) d).

(** *** Store setters *)

Definition setBlendValuesFromCalibration (p : Profile) : M unit :=
  on_store (fun s => mkStore p (smileBlendValues s) (status s)).
Definition setSmileBlendValuesFromCalibration (p : Profile) : M unit :=
  on_store (fun s => mkStore (blendValues s) p (status s)).

(** *** Refs *)

Definition assign_calibrateRequestRef (h : nat) : M unit :=
  on_refs (fun r => mkRefs (Some h) (predictRequestRef r)).
Definition assign_predictRequestRef (h : nat) : M unit :=
  on_refs (fun r => mkRefs (calibrateRequestRef r) (Some h)).

(** *** Host calls *)

Definition console_log (msg : string) : M unit :=
  on_host (fun h => mkHost (frames h) (nextHandle h) (timeouts h)
    (console h ++ [msg]) (detectCalls h)).

Definition requestAnimationFrame (cb : Callback) : M nat :=
  h <- read (fun w => nextHandle (host w)) ;;
  on_host (fun o => mkHost (frames o ++ [(h, cb)]) (S (nextHandle o))
    (timeouts o) (console o) (detectCalls o)) ;;
  ret h.

Definition cancelAnimationFrame (h : nat) : M unit :=
  on_host (fun o => mkHost (filter (fun e => e.1 <> h) (frames o))
    (nextHandle o) (timeouts o) (console o) (detectCalls o)).

Definition setTimeout (cb : Callback) (ms : number) : M unit :=
  on_host (fun o => mkHost (frames o) (nextHandle o)
    (timeouts o ++ [(cb, ms)]) (console o) (detectCalls o)).

(** [faceLandmarker.detectForVideo(video, startTimeMs)]: the call is
    recorded and answers with the tick's blendshapes. *)
Definition detectForVideo (t : Tick) (v : HTMLVideoElement)
    (startTimeMs : number) : M FaceBlendshapes :=
  on_host (fun o => mkHost (frames o) (nextHandle o) (timeouts o)
    (console o) (detectCalls o ++ [(v, startTimeMs)])) ;;
  ret (detected t).

(** ** The hook *)

Section Hook.

(** [initialBlendValues] is imported from the store module, which is not
    part of the sources: any profile object. *)
Variable initialBlendValues : Profile.

(** [initFacelandmarks]; [mediaDevices] is what [isWebcamIsEnabled()]
    finds in [navigator], [landmarker] whether the service has one. *)
Definition initFacelandmarks (landmarker mediaDevices : bool) : M unit :=
  setFaceLandmarker landmarker ;;
  setIsInitialized true ;;
  if mediaDevices then
    setCalibrationStatus READY ;;
    setPredictionStatus READY ;;
    setWebcamRunning true ;;
    setWebcamEnabled true
  else ret tt.

(** *** Calibration *)

(** The body of the [for (var key in categories)] loop of
    [doCalibration]: [push] the score when the buffers own the name. *)
Definition push_sample (o : DuringCalibrationBlendValues) (c : Category)
    : DuringCalibrationBlendValues :=
  let blendName := categoryName c in
  let blendScore := score c in
  match own_key blendName with
  | Some k => set o k (get o k ++ [blendScore])
  | None => o
  end.

Definition doCalibration (r : Render) (t : Tick) : M unit :=
  match serviceLandmarker t, video (state r) with
  | true, Some v =>
      let startTimeMs := now t in
      last <- read (fun w => lastVideoTime (globals w)) ;;
      results <-
        (if strict_neq last (currentTime t) then
           assign_lastVideoTime (currentTime t) ;;
           res <- detectForVideo t v startTimeMs ;;
           ret (Some res)
         else ret None) ;;
      match results with
      | Some (categories :: _) =>
          o <- read (fun w => calibrationBlendValues (globals w)) ;;
          assign_calibrationBlendValues (fold_left push_sample categories o) ;;
          setCalibrationFrames (calibrationFrames (state r) + 1) ;;
          if decide (calibrationStatus (state r) = DOING) then
            h <- requestAnimationFrame (CbDoCalibration r) ;;
            assign_calibrateRequestRef h
          else ret tt
      | _ => ret tt
      end
  | _, _ => ret tt
  end.

(** The body of the [for (var key in calibrationBlendValues)] loop of
    [storeCalibrations]. *)
Definition store_average (samples : DuringCalibrationBlendValues)
    (tmpBlendValues : Profile) (key : BlendName) : Profile :=
  let values := get samples key in
  <[key_name key := sum values / length_number values]> tmpBlendValues.

Definition storeCalibrations (r : Render) : M unit :=
  console_log "storeCalibrations" ;;
  let tmpBlendValues := initialBlendValues in
  samples <- read (fun w => calibrationBlendValues (globals w)) ;;
  let tmpBlendValues := fold_left (store_average samples) keys tmpBlendValues in
  if decide (calibrationStatusFromStore r = NEUTRAL) then
    setBlendValuesFromCalibration tmpBlendValues
  else
    setSmileBlendValuesFromCalibration tmpBlendValues.

Definition stopCalibration (r : Render) : M unit :=
  console_log "stopCalibration" ;;
  setCalibrationStatus DONE ;;
  storeCalibrations r ;;
  setVideo None.

Definition emptySamples : DuringCalibrationBlendValues :=
  mkBlend [] [] [] [].

Definition startCalibration (r : Render) : M unit :=
  console_log "startCalibration" ;;
  match video (state r) with
  | None => console_log "Wait! video not loaded yet."
  | Some _ =>
      assign_calibrationBlendValues emptySamples ;;
      setCalibrationFrames 0 ;;
      setCalibrationStatus DOING ;;
      setTimeout (CbStopCalibration r) 2000
  end.

(** *** Prediction *)

Definition initialFactors : FaceLandmarkerBlendValues := mkBlend 0 0 0 0.

(** The body of the [for (const key in categories)] loop of
    [updateBlendValues].  A name outside the four keys can still pass
    [in] through [Object.prototype]; the assignment then makes a property
    of that name and leaves the four numeric fields as they are. *)
Definition add_factor (r : Render) (blendFactors : FaceLandmarkerBlendValues)
    (c : Category) : FaceLandmarkerBlendValues :=
  let blendName := categoryName c in
  let blendScore := score c in
  match own_key blendName, blendValuesFromCalibration r !! blendName with
  | Some k, Some baseline =>
      set blendFactors k
        (get blendFactors k
         + blendScore
           / (to_number (smileBlendValuesFromCalibration r !! blendName)
              - baseline))
  | _, _ => blendFactors
  end.

(** The [blendFactors] that [updateBlendValues] hands to [calculateMood]. *)
Definition blendFactorsOf (r : Render) (categories : list Category)
    : FaceLandmarkerBlendValues :=
  fold_left (add_factor r) categories initialFactors.

Definition calculateMood (r : Render) (blendValues : FaceLandmarkerBlendValues)
    : M unit :=
  console_log "calculateMood" ;;
  let tmpSmileDegree :=
    (mouthSmileLeft blendValues + mouthSmileRight blendValues) / 200 in
  let tmpSmileDegree := Math_min 1 (Math_max 0 (smileDegree (state r))) in
  l <- read (fun w => smileDegrees (globals w)) ;;
  assign_smileDegrees (l ++ [tmpSmileDegree]) ;;
  console_log "set smile degree" ;;
  setSmileDegree tmpSmileDegree.

Definition updateBlendValues (r : Render) (faceBlendshapes : FaceBlendshapes)
    : M unit :=
  console_log "updateBlendValues" ;;
  match faceBlendshapes with
  | categories :: _ => calculateMood r (blendFactorsOf r categories)
  | [] => throw "TypeError: faceBlendshapes[0] is undefined"
  end.

Definition startPrediction (r : Render) : M unit :=
  console_log "startPrediction" ;;
  setPredictionStatus DOING ;;
  assign_smileDegrees [].

(** [stopPrediction] returns a number, or [undefined] ([None]). *)
Definition stopPrediction (r : Render) : M (option number) :=
  console_log "endPrediction" ;;
  match faceLandmarker (state r), video (state r) with
  | true, Some _ =>
      l <- read (fun w => smileDegrees (globals w)) ;;
      let predictedSmileDegree := sum l / length_number l in
      console_log "final average smile degree predicted" ;;
      setCalibrationStatus DONE ;;
      ret (Some predictedSmileDegree)
  | _, _ => ret None
  end.

Definition predictWebcam (r : Render) (t : Tick) : M unit :=
  console_log "predictWebcam" ;;
  match serviceLandmarker t, video (state r) with
  | true, Some v =>
      let startTimeMs := now t in
      last <- read (fun w => lastVideoTime (globals w)) ;;
      results <-
        (if strict_neq last (currentTime t) then
           assign_lastVideoTime (currentTime t) ;;
           res <- detectForVideo t v startTimeMs ;;
           ret (Some res)
         else ret None) ;;
      console_log (match results with Some _ => "results" | None => "null" end) ;;
      match results with
      | Some (categories :: rest) => updateBlendValues r (categories :: rest)
      | _ => ret tt
      end ;;
      h <- requestAnimationFrame (CbPredictWebcam r) ;;
      assign_predictRequestRef h
  | _, _ => ret tt
  end.

(** *** Effects *)

(** [useEffect(..., [calibrationStatus, doCalibration])] *)
Definition effect_calibration (r : Render) : M unit :=
  if decide (calibrationStatus (state r) = DOING) then
    h <- requestAnimationFrame (CbDoCalibration r) ;;
    assign_calibrateRequestRef h
  else ret tt.

(** [useEffect(..., [predictionStatus, predictWebcam])]; [memo] is the
    render whose [predictWebcam] the [useCallback] kept. *)
Definition effect_prediction (r memo : Render) : M unit :=
  if decide (predictionStatus (state r) = DOING) then
    h <- requestAnimationFrame (CbPredictWebcam memo) ;;
    assign_predictRequestRef h
  else ret tt.

(** [useEffect(..., [initFacelandmarks, video])], the effect itself. *)
Definition effect_video (r : Render) (landmarker mediaDevices : bool) : M unit :=
  match video (state r) with
  | None => ret tt
  | Some _ => initFacelandmarks landmarker mediaDevices
  end.

(** [ref.current && cancelAnimationFrame(ref.current)] *)
Definition cancel_ref (current : option nat) : M unit :=
  match current with
  | Some (S h) => cancelAnimationFrame (S h)
  | _ => ret tt
  end.

(** The cleanup that effect returned; there is one only if [video] was
    attached in the render that ran the effect. *)
Definition cleanup_video (r : Render) : M unit :=
  match video (state r) with
  | None => ret tt
  | Some _ =>
      c <- read (fun w => calibrateRequestRef (refs w)) ;;
      cancel_ref c ;;
      p <- read (fun w => predictRequestRef (refs w)) ;;
      cancel_ref p
  end.

Definition setVideoNode (v : HTMLVideoElement) : M unit :=
  setVideo (Some v).

(** *** The host running a callback it was handed *)

Definition run_callback (cb : Callback) (t : Tick) : M unit :=
  match cb with
  | CbDoCalibration r => doCalibration r t
  | CbPredictWebcam r => predictWebcam r t
  | CbStopCalibration r => stopCalibration r
  end.

End Hook.

(** ** Runs of the hook *)

(** The cells as the [useState] calls initialise them, and the module-level
    variables as the module initialises them. *)
Definition initialState : State :=
  mkState false false None false false 0 NOT_READY NOT_READY 0.

Definition initialGlobals : Globals := mkGlobals (-1) [] emptySamples.

Definition initialWorld (s : Store) : World :=
  mkWorld initialGlobals initialState s (mkRefs None None)
    (mkHost [] 1 [] [] []).

(** The render React makes of a world: its closures see the cells and the
    store as they are then. *)
Definition render_of (w : World) : Render := mkRender (cells w) (store w).

(** Everything that can call into the hook, with what the host supplies. *)
Inductive Call :=
  | EffectVideo (landmarker mediaDevices : bool)
  | CleanupVideo
  | EffectCalibration
  | EffectPrediction (memo : Render)
  | SetVideoNode (v : HTMLVideoElement)
  | StartCalibration
  | StopCalibration
  | StartPrediction
  | StopPrediction
  | DoCalibration (t : Tick)
  | PredictWebcam (t : Tick).

Section Runs.

Variable initialBlendValues : Profile.

Definition perform (c : Call) (r : Render) : M unit :=
  match c with
  | EffectVideo landmarker mediaDevices => effect_video r landmarker mediaDevices
  | CleanupVideo => cleanup_video r
  | EffectCalibration => effect_calibration r
  | EffectPrediction memo => effect_prediction r memo
  | SetVideoNode v => setVideoNode v
  | StartCalibration => startCalibration r
  | StopCalibration => stopCalibration initialBlendValues r
  | StartPrediction => startPrediction r
  | StopPrediction => _ <- stopPrediction r ;; ret tt
  | DoCalibration t => doCalibration r t
  | PredictWebcam t => predictWebcam r t
  end.

(** [reachable past w]: the world [w] arises from the initial one by calls
    made from closures of earlier renders ([past], latest first), a
    closure possibly outliving several renders, with the store also
    written by the rest of the application. *)
Inductive reachable : list Render -> World -> Prop :=
  | reach_init s :
      reachable [render_of (initialWorld s)] (initialWorld s)
  | reach_call past w c r :
      reachable past w ->
      r ∈ past ->
      reachable (render_of (exec (perform c r) w) :: past)
                (exec (perform c r) w)
  | reach_store past w s :
      reachable past w ->
      reachable
        (render_of (mkWorld (globals w) (cells w) s (refs w) (host w)) :: past)
        (mkWorld (globals w) (cells w) s (refs w) (host w)).

(** The host serving the oldest pending animation-frame request. *)
Definition animationFrame (t : Tick) : M unit :=
  pending <- read (fun w => frames (host w)) ;;
  match pending with
  | [] => ret tt
  | (_, cb) :: later =>
      on_host (fun o => mkHost later (nextHandle o) (timeouts o) (console o)
                          (detectCalls o)) ;;
      run_callback initialBlendValues cb t
  end.

(** A prediction session fed [n] frames: [updateBlendValues] once per
    frame, each from the closure of some render. *)
Fixpoint feed (fs : list (Render * FaceBlendshapes)) (w : World) : World :=
  match fs with
  | [] => w
  | (r, faces) :: fs' => feed fs' (exec (updateBlendValues r faces) w)
  end.

(** A sampling call of either loop. *)
Inductive Loop := Calibration | Prediction.

Definition sample (l : Loop) (r : Render) (t : Tick) : M unit :=
  match l with
  | Calibration => doCalibration r t
  | Prediction => predictWebcam r t
  end.

Fixpoint samples (cs : list (Loop * Render * Tick)) (w : World) : World :=
  match cs with
  | [] => w
  | (l, r, t) :: cs' => samples cs' (exec (sample l r t) w)
  end.

End Runs.

(** ** What the specification speaks of *)

Module Spec.

(** [x] lies in the interval [[0,1]]. *)
Definition in01 (x : number) : bool := (0 <=? x) && (x <=? 1).

(** [clamp01] *)
Definition clamp01 (x : number) : number := Math_min 1 (Math_max 0 x).

(** The smile degree of a frame's blend factors, as the specification
    gives it: [clamp01((mouthSmileLeft + mouthSmileRight) / 200)]. *)
Definition smileDegreeOf (blendFactors : FaceLandmarkerBlendValues) : number :=
  clamp01 ((mouthSmileLeft blendFactors + mouthSmileRight blendFactors) / 200).

(** The sum of the first [n] elements, [x_0 + ... + x_(n-1)], added up in
    index order. *)
Fixpoint partial_sum (xs : list number) (n : nat) : number :=
  match n with
  | O => 0
  | S n' => partial_sum xs n' + to_number (xs !! n')
  end.

(** The arithmetic mean of a sample list: the sum of its elements over
    their count. *)
Definition arithmetic_mean (xs : list number) : number :=
  partial_sum xs (length xs) / length_number xs.

(** A category that carries a smile score. *)
Definition smile_named (c : Category) : Prop :=
  categoryName c = "mouthSmileLeft" \/ categoryName c = "mouthSmileRight".

(** The part of a frame that carries its smile scores. *)
Definition smile_scores (categories : list Category) : list Category :=
  filter smile_named categories.

(** A category is degenerate for the profiles of a render when its
    baseline or smile entry is missing, or the two are equal. *)
Definition degenerate (r : Render) (c : Category) : Prop :=
  blendValuesFromCalibration r !! categoryName c = None
  \/ smileBlendValuesFromCalibration r !! categoryName c = None
  \/ smileBlendValuesFromCalibration r !! categoryName c
     = blendValuesFromCalibration r !! categoryName c.

End Spec.

Import Spec.

(** ** What the statements observe *)

(** The profile [storeCalibrations] writes, to the baseline when the store
    is in [NEUTRAL] mode and to the smile profile otherwise. *)
Definition written (r : Render) (w : World) : Profile :=
  if decide (calibrationStatusFromStore r = NEUTRAL)
  then blendValues (store w) else smileBlendValues (store w).

(** What a sampling call can add to: the detector's call log and the two
    sample stores. *)
Definition sampled_state (w : World)
    : list (HTMLVideoElement * number) * DuringCalibrationBlendValues
      * list number :=
  (detectCalls (host w), calibrationBlendValues (globals w),
   smileDegrees (globals w)).

(** A ref names a request when it holds its handle, a positive number. *)
Definition names (current : option nat) (h : nat) : Prop :=
  exists c, current = Some (S c) /\ h = S c.

(** ** Concrete inputs *)

Module Example.

(** Profiles with exactly representable values: the smile categories move
    from 0.25 (neutral) to 0.75 (smiling); the press categories do not
    move at all. *)
Definition neutral : Profile :=
  <["mouthPressLeft" := 0]> (<["mouthPressRight" := 0]>
  (<["mouthSmileLeft" := 0.25]> (<["mouthSmileRight" := 0.25]> ∅))).

Definition smiling : Profile :=
  <["mouthPressLeft" := 0]> (<["mouthPressRight" := 0]>
  (<["mouthSmileLeft" := 0.75]> (<["mouthSmileRight" := 0.75]> ∅))).

Definition calibrated : Store := mkStore neutral smiling SMILE.

(** A render after both passes, with the video attached. *)
Definition attached (c p : CalibrationStatus) : Render :=
  mkRender (mkState true true (Some 1%nat) true true 0 c p 0) calibrated.

(** A half smile, with a pressed left corner and a category the hook does
    not know. *)
Definition halfSmile : list Category :=
  [ mkCategory "browDownLeft" 0.5;
    mkCategory "mouthPressLeft" 0.5;
    mkCategory "mouthSmileLeft" 0.5;
    mkCategory "mouthSmileRight" 0.5 ].

(** Scores no detector should produce. *)
Definition malformed : list Category :=
  [ mkCategory "mouthSmileLeft" (-3);
    mkCategory "mouthSmileRight" 7;
    mkCategory "mouthPressLeft" nan ].

Definition tick (time : number) (cs : list Category) : Tick :=
  mkTick true 16 time [cs].

End Example.

(** ** A calibration pass, step by step *)

Module Pass.

(** The video node is set, the video effect finds the landmarker and the
    webcam interface, calibration is started, the calibration effect
    requests the first frame, and the host serves that request: the frame
    is sampled and the loop requests the next one. *)
Definition mounted : World := initialWorld Example.calibrated.
Definition withVideo : World := exec (setVideoNode 1%nat) mounted.
Definition ready : World :=
  exec (effect_video (render_of withVideo) true true) withVideo.
Definition started : World := exec (startCalibration (render_of ready)) ready.
Definition requested : World :=
  exec (effect_calibration (render_of started)) started.
Definition sampled : World :=
  exec (animationFrame ∅ (Example.tick 1 Example.halfSmile)) requested.

End Pass.

(** ** A teardown in the middle of a pass *)

Module Teardown.

(** The pass of [Pass], one frame in: the re-render that the new frame
    count causes changes [doCalibration], so the calibration effect runs
    again and requests a frame too; then the component is torn down, and
    the host serves what is still pending, on a new video frame. *)
Definition rerendered : World :=
  exec (effect_calibration (render_of Pass.sampled)) Pass.sampled.
Definition unmounted : World :=
  exec (cleanup_video (render_of rerendered)) rerendered.
Definition afterwards : World :=
  exec (animationFrame ∅ (Example.tick 2 Example.halfSmile)) unmounted.

End Teardown.

(** ** Invariants of runs *)

(** The smile degree, wherever it is kept, is a number of [[0,1]]: in the
    cell, in every render that captured it, and in the sample list. *)
Definition smile_invariant (past : list Render) (w : World) : Prop :=
  Forall (fun r => in01 (smileDegree (state r)) = true) past
  /\ in01 (smileDegree (cells w)) = true
  /\ Forall (fun d => in01 d = true) (smileDegrees (globals w)).

(** Unfolding the hook's functions down to the state they thread. *)
Ltac hook_unfold :=
  cbv [perform sample effect_video cleanup_video effect_calibration
       effect_prediction setVideoNode startCalibration stopCalibration
       storeCalibrations startPrediction stopPrediction doCalibration
       predictWebcam updateBlendValues calculateMood initFacelandmarks
       cancel_ref run_callback requestAnimationFrame cancelAnimationFrame
       setTimeout detectForVideo console_log assign_lastVideoTime
       assign_smileDegrees assign_calibrationBlendValues
       assign_calibrateRequestRef assign_predictRequestRef setFaceLandmarker
       setIsInitialized setVideo setWebcamRunning setWebcamEnabled
       setCalibrationFrames setCalibrationStatus setPredictionStatus
       setSmileDegree setBlendValuesFromCalibration
       setSmileBlendValuesFromCalibration on_globals on_cells on_store
       on_refs on_host modify read bind ret throw exec eval].

(** Splitting on every branch the unfolded code takes. *)
Ltac hook_cases := repeat (first [progress simplify_eq/= | case_match]).

(** ** Facts about numbers *)

Module NumberFacts.

(** The order of the specification of binary64 is antisymmetric. *)
Lemma SFcompare_antisym x y :
  SFcompare y x = option_map CompOpp (SFcompare x y).
Proof.
  destruct x as [[]|[]| |[] m1 e1], y as [[]|[]| |[] m2 e2];
    simpl; try reflexivity;
    rewrite (Z.compare_antisym e1 e2); destruct (e1 ?= e2)%Z;
    simpl; try reflexivity;
    change (Pos.compare_cont Eq m2 m1) with (m2 ?= m1)%positive;
    change (Pos.compare_cont Eq m1 m2) with (m1 ?= m2)%positive;
    rewrite (Pos.compare_antisym m1 m2); by destruct (m1 ?= m2)%positive.
Qed.

Lemma is_nan_spec x :
  is_nan x = match Prim2SF x with S754_nan => true | _ => false end.
Proof.
  unfold is_nan. rewrite FloatAxioms.eqb_spec. unfold SFeqb.
  destruct (Prim2SF x) as [[]|[]| |[] m e]; simpl; try reflexivity;
    rewrite Z.compare_refl;
    change (Pos.compare_cont Eq m m) with (m ?= m)%positive;
    by rewrite Pos.compare_refl.
Qed.

Lemma compare_defined x y :
  is_nan x = false -> is_nan y = false ->
  exists c, SFcompare (Prim2SF x) (Prim2SF y) = Some c.
Proof.
  rewrite !is_nan_spec.
  destruct (Prim2SF x) as [[]|[]| |[] ? ?], (Prim2SF y) as [[]|[]| |[] ? ?];
    simpl; intros; try discriminate; eauto.
Qed.

Lemma ltb_leb x y : (x <? y) = true -> (x <=? y) = true.
Proof.
  rewrite FloatAxioms.ltb_spec, FloatAxioms.leb_spec. unfold SFltb, SFleb.
  by destruct (SFcompare _ _) as [[]|].
Qed.

Lemma not_ltb_leb x y :
  is_nan x = false -> is_nan y = false ->
  (x <? y) = false -> (y <? x) = false -> (x <=? y) = true.
Proof.
  intros Hx Hy. destruct (compare_defined x y Hx Hy) as [c Hc].
  rewrite !FloatAxioms.ltb_spec, FloatAxioms.leb_spec. unfold SFltb, SFleb.
  rewrite (SFcompare_antisym (Prim2SF x) (Prim2SF y)), Hc.
  by destruct c.
Qed.

Lemma leb_not_nan x y :
  (x <=? y) = true -> is_nan x = false /\ is_nan y = false.
Proof.
  rewrite !is_nan_spec, FloatAxioms.leb_spec. unfold SFleb.
  by destruct (Prim2SF x) as [[]|[]| |[] ? ?], (Prim2SF y) as [[]|[]| |[] ? ?].
Qed.

Lemma in01_not_nan x : in01 x = true -> is_nan x = false.
Proof.
  unfold in01. intros [H _]%andb_prop. by apply leb_not_nan in H as [_ ?].
Qed.

(** [Math.max(0, d)] of a number is [0] or a [d] above [0]. *)
Lemma Math_max_0 d :
  is_nan d = false ->
  Math_max 0 d = 0 \/ (Math_max 0 d = d /\ (0 <? d) = true).
Proof.
  intros Hd. unfold Math_max. rewrite Hd.
  change (is_nan 0) with false. change (get_sign 0) with false. simpl.
  destruct (0 <? d) eqn:H0d; [by right|]. left. by destruct (d <? 0).
Qed.

(** Clamping a number yields a number of [[0,1]]. *)
Lemma clamp01_in01 d : is_nan d = false -> in01 (clamp01 d) = true.
Proof.
  intros Hd. unfold clamp01.
  assert (Hm : is_nan (Math_max 0 d) = false /\ (0 <=? Math_max 0 d) = true).
  { destruct (Math_max_0 d Hd) as [->|[-> Hlt]]; [done|].
    split; [done|by apply ltb_leb]. }
  destruct Hm as [Hn H0]. revert Hn H0. generalize (Math_max 0 d). intros m Hn H0.
  unfold Math_min, in01. rewrite Hn.
  change (is_nan 1) with false. change (get_sign 1) with false. simpl.
  destruct (1 <? m) eqn:H1m; [done|].
  destruct (m <? 1) eqn:Hm1.
  - rewrite H0. simpl. by apply ltb_leb.
  - rewrite H0. simpl. by apply not_ltb_leb.
Qed.

(** A [NaN] goes through the clamp. *)
Lemma clamp01_nan : clamp01 nan = nan.
Proof. reflexivity. Qed.

(** *** Division by zero *)

Lemma Prim2SF_zero : Prim2SF 0 = S754_zero false.
Proof. reflexivity. Qed.

Lemma Prim2SF_infinity : Prim2SF infinity = S754_infinity false.
Proof. reflexivity. Qed.

Lemma finite_spec x :
  finite x = match Prim2SF x with
             | S754_zero _ | S754_finite _ _ _ => true
             | _ => false
             end.
Proof.
  unfold finite, is_infinity.
  rewrite is_nan_spec, FloatAxioms.eqb_spec, FloatAxioms.abs_spec.
  rewrite Prim2SF_infinity. by destruct (Prim2SF x) as [[]|[]| |[] m e].
Qed.

(** Equal finite profile values leave a denominator of exactly [0]. *)
Lemma sub_diag b : finite b = true -> b - b = 0.
Proof.
  rewrite finite_spec. intros Hb. apply Prim2SF_inj.
  rewrite FloatAxioms.sub_spec, Prim2SF_zero. unfold SF64sub.
  destruct (Prim2SF b) as [[]|[]| |s m e]; try done.
  unfold SFsub. by rewrite Z.sub_diag.
Qed.

(** A quotient by [0] is [Infinity], [-Infinity] or [NaN]. *)
Lemma div_0_not_finite x : finite (x / 0) = false.
Proof.
  rewrite finite_spec, FloatAxioms.div_spec, Prim2SF_zero. unfold SF64div.
  by destruct (Prim2SF x) as [[]|[]| |[] m e].
Qed.

(** Adding to an infinity or a [NaN] does not bring it back. *)
Lemma add_not_finite a x : finite x = false -> finite (a + x) = false.
Proof.
  rewrite !finite_spec, FloatAxioms.add_spec. unfold SF64add.
  by destruct (Prim2SF a) as [[]|[]| |[] ? ?], (Prim2SF x) as [[]|[]| |[] ? ?].
Qed.

Lemma zero_denominator_not_finite a s b :
  finite b = true -> finite (a + s / (b - b)) = false.
Proof.
  intros Hb. rewrite (sub_diag b Hb). apply add_not_finite, div_0_not_finite.
Qed.

End NumberFacts.

Import NumberFacts.


(** ** The smile degree stays in the unit interval *)

Section SmileDegree.

Variable initialBlendValues : Profile.

(** [calculateMood] appends the clamp of the smile degree its render
    captured, and sets the cell to it; the blend values it is given play
    no part. *)
Lemma calculateMood_sample r blendValues w :
  let w' := exec (calculateMood r blendValues) w in
  smileDegrees (globals w')
  = smileDegrees (globals w) ++ [clamp01 (smileDegree (state r))]
  /\ smileDegree (cells w') = clamp01 (smileDegree (state r)).
Proof. by hook_unfold. Qed.

(** No call moves the smile degree other than to such a clamp. *)
Lemma perform_smile c r w :
  let w' := exec (perform initialBlendValues c r) w in
  (smileDegree (cells w') = smileDegree (cells w)
   \/ smileDegree (cells w') = clamp01 (smileDegree (state r)))
  /\ (smileDegrees (globals w') = smileDegrees (globals w)
      \/ smileDegrees (globals w') = []
      \/ smileDegrees (globals w')
         = smileDegrees (globals w) ++ [clamp01 (smileDegree (state r))]).
Proof. destruct c; hook_unfold; simpl; hook_cases; auto. Qed.

Lemma reachable_smile_invariant past w :
  reachable initialBlendValues past w -> smile_invariant past w.
Proof.
  induction 1 as [s|past w c r Hreach (Hpast & Hcell & Hlist) Hr
                   |past w s Hreach (Hpast & Hcell & Hlist)].
  - split; [|split]; [by repeat constructor|done|constructor].
  - assert (Hc : in01 (clamp01 (smileDegree (state r))) = true).
    { rewrite Forall_forall in Hpast.
      by apply clamp01_in01, in01_not_nan, Hpast. }
    destruct (perform_smile c r w) as [Hcell' Hlist'].
    assert (Hcell'' : in01 (smileDegree (cells (exec (perform initialBlendValues c r) w))) = true).
    { by destruct Hcell' as [-> | ->]. }
    split; [|split].
    + by constructor.
    + done.
    + destruct Hlist' as [-> | [-> | ->]]; [done|constructor|].
      apply Forall_app. split; [done|by repeat constructor].
  - split; [|split]; [by constructor|done|done].
Qed.

(** C8. Whatever the blendshape scores of a frame are (negative, above 1,
    infinite or NaN), the smile degree that [updateBlendValues] computes
    and appends to [smileDegrees] lies in [[0,1]], and so does every
    sample of the list, in every world the hook can reach. *)
Theorem C8_smile_degree_in_unit_interval past w r categories rest :
  reachable initialBlendValues past w ->
  r ∈ past ->
  let w' := exec (updateBlendValues r (categories :: rest)) w in
  exists d,
    smileDegrees (globals w') = smileDegrees (globals w) ++ [d]
    /\ smileDegree (cells w') = d
    /\ in01 d = true
    /\ Forall (fun x => in01 x = true) (smileDegrees (globals w')).
Proof.
  intros Hreach Hr w'.
  destruct (reachable_smile_invariant past w Hreach) as (Hpast & _ & Hlist).
  assert (Hc : in01 (clamp01 (smileDegree (state r))) = true).
  { rewrite Forall_forall in Hpast.
    by apply clamp01_in01, in01_not_nan, Hpast. }
  exists (clamp01 (smileDegree (state r))).
  assert (Hw : smileDegrees (globals w')
               = smileDegrees (globals w) ++ [clamp01 (smileDegree (state r))]
               /\ smileDegree (cells w') = clamp01 (smileDegree (state r))).
  { subst w'. by hook_unfold. }
  destruct Hw as [Hs Hd]. split; [done|]. split; [done|]. split; [done|].
  rewrite Hs. apply Forall_app. split; [done|by repeat constructor].
Qed.

End SmileDegree.

(** C8 at the first render, on a frame with scores of -3, 7 and NaN. *)
Lemma C8_witness :
  exists d,
    smileDegrees (globals (exec (updateBlendValues
        (render_of (initialWorld Example.calibrated)) [Example.malformed])
        (initialWorld Example.calibrated)))
    = smileDegrees (globals (initialWorld Example.calibrated)) ++ [d]
    /\ smileDegree (cells (exec (updateBlendValues
        (render_of (initialWorld Example.calibrated)) [Example.malformed])
        (initialWorld Example.calibrated))) = d
    /\ in01 d = true
    /\ Forall (fun x => in01 x = true)
         (smileDegrees (globals (exec (updateBlendValues
            (render_of (initialWorld Example.calibrated)) [Example.malformed])
            (initialWorld Example.calibrated)))).
Proof.
  exact (C8_smile_degree_in_unit_interval ∅
           [render_of (initialWorld Example.calibrated)]
           (initialWorld Example.calibrated)
           (render_of (initialWorld Example.calibrated))
           Example.malformed []
           (reach_init ∅ Example.calibrated)
           (list_elem_of_here _ _)).
Defined.


(** ** Prediction: the blend factors of a frame *)

Section BlendFactors.

Implicit Types (r : Render) (c : Category) (bf : FaceLandmarkerBlendValues).

Lemma get_set_same {A} (o : Blend A) k v : get (set o k v) k = v.
Proof. by destruct k. Qed.

Lemma blendFactorsOf_app r pre post :
  blendFactorsOf r (pre ++ post)
  = fold_left (add_factor r) post (blendFactorsOf r pre).
Proof. unfold blendFactorsOf. apply fold_left_app. Qed.

(** The one guard of the loop: a category is left out when the name is
    none of the four keys or the baseline profile has no such entry. *)
Lemma add_factor_skip r bf c :
  own_key (categoryName c) = None
  \/ blendValuesFromCalibration r !! categoryName c = None ->
  add_factor r bf c = bf.
Proof.
  unfold add_factor. cbv zeta. intros [-> | ->]; [done|].
  by destruct (own_key (categoryName c)).
Qed.

Lemma add_factor_add r bf c k baseline :
  own_key (categoryName c) = Some k ->
  blendValuesFromCalibration r !! categoryName c = Some baseline ->
  add_factor r bf c
  = set bf k
      (get bf k
       + score c
         / (to_number (smileBlendValuesFromCalibration r !! categoryName c)
            - baseline)).
Proof. unfold add_factor. cbv zeta. by intros -> ->. Qed.

(** [updateBlendValues] does not throw on a frame that has a face. *)
Lemma updateBlendValues_normal r categories rest w :
  eval (updateBlendValues r (categories :: rest)) w = Normal tt.
Proof. by hook_unfold. Qed.

(** A number of [[0,1]] is neither infinite nor NaN. *)
Lemma in01_finite d : in01 d = true -> finite d = true.
Proof.
  unfold in01. rewrite finite_spec, !FloatAxioms.leb_spec, Prim2SF_zero.
  change (Prim2SF 1) with (S754_finite false 4503599627370496 (-52)).
  unfold SFleb. by destruct (Prim2SF d) as [[]|[]| |[] ? ?].
Qed.

(** C1, as the code has it.  A category leaves the four blend factors as
    they are when its name is none of the four keys or the baseline
    profile has no entry for it.  A category of the four whose baseline
    entry exists is not guarded any further: its own factor, and no
    other, grows by [score / (smile - baseline)], a missing smile entry
    reading as NaN, and when the two profile values are equal and finite
    the denominator is [0] and the factor ends up infinite or NaN.  None of
    this throws, and none of it reaches the aggregate: in every world the
    hook can reach, the sample appended for the frame is a number of
    [[0,1]], neither infinite nor NaN. *)
Theorem C1_degenerate_categories r pre c post rest w :
  (own_key (categoryName c) = None
   \/ blendValuesFromCalibration r !! categoryName c = None ->
   blendFactorsOf r (pre ++ c :: post) = blendFactorsOf r (pre ++ post))
  /\ (forall k baseline,
        own_key (categoryName c) = Some k ->
        blendValuesFromCalibration r !! categoryName c = Some baseline ->
        blendFactorsOf r (pre ++ [c])
        = set (blendFactorsOf r pre) k
            (get (blendFactorsOf r pre) k
             + score c
               / (to_number (smileBlendValuesFromCalibration r !! categoryName c)
                  - baseline)))
  /\ (forall k baseline,
        own_key (categoryName c) = Some k ->
        blendValuesFromCalibration r !! categoryName c = Some baseline ->
        smileBlendValuesFromCalibration r !! categoryName c = Some baseline ->
        finite baseline = true ->
        finite (get (blendFactorsOf r (pre ++ [c])) k) = false)
  /\ eval (updateBlendValues r ((pre ++ c :: post) :: rest)) w = Normal tt
  /\ (forall initialBlendValues past,
        reachable initialBlendValues past w ->
        r ∈ past ->
        exists d,
          smileDegrees
            (globals (exec (updateBlendValues r ((pre ++ c :: post) :: rest)) w))
          = smileDegrees (globals w) ++ [d]
          /\ in01 d = true
          /\ finite d = true).
Proof.
  split; [|split; [|split; [|split]]].
  - intros Hskip. rewrite !blendFactorsOf_app. simpl.
    by rewrite add_factor_skip.
  - intros k baseline Hk Hb. rewrite blendFactorsOf_app. simpl.
    by rewrite (add_factor_add _ _ _ k baseline).
  - intros k baseline Hk Hb Hs Hfin. rewrite blendFactorsOf_app. simpl.
    rewrite (add_factor_add _ _ _ k baseline), get_set_same by done.
    rewrite Hs. simpl. by apply zero_denominator_not_finite.
  - apply updateBlendValues_normal.
  - intros initialBlendValues past Hreach Hr.
    destruct (reachable_smile_invariant initialBlendValues past w Hreach)
      as (Hpast & _ & _).
    rewrite Forall_forall in Hpast.
    assert (Hd : in01 (clamp01 (smileDegree (state r))) = true)
      by by apply clamp01_in01, in01_not_nan, Hpast.
    exists (clamp01 (smileDegree (state r))).
    split; [by hook_unfold|].
    split; [done|by apply in01_finite].
Qed.

End BlendFactors.

(** C1 on the half smile: the unknown category is left out, the left
    smile adds [0.5 / (0.75 - 0.25)] to its own factor, the pressed left
    corner, whose two profile values are both [0], makes its factor
    infinite, and the sample appended at the first render is a number of
    [[0,1]] all the same. *)
Lemma C1_witness :
  blendFactorsOf (Example.attached DONE DOING) Example.halfSmile
  = blendFactorsOf (Example.attached DONE DOING) (drop 1 Example.halfSmile)
  /\ blendFactorsOf (Example.attached DONE DOING) (take 3 Example.halfSmile)
     = set (blendFactorsOf (Example.attached DONE DOING)
              (take 2 Example.halfSmile)) MouthSmileLeft
         (mouthSmileLeft (blendFactorsOf (Example.attached DONE DOING)
            (take 2 Example.halfSmile))
          + 0.5 / (0.75 - 0.25))
  /\ finite (mouthPressLeft (blendFactorsOf (Example.attached DONE DOING)
        (take 2 Example.halfSmile))) = false
  /\ exists d,
       smileDegrees (globals (exec (updateBlendValues
           (render_of (initialWorld Example.calibrated)) [Example.halfSmile])
           (initialWorld Example.calibrated)))
       = smileDegrees (globals (initialWorld Example.calibrated)) ++ [d]
       /\ in01 d = true
       /\ finite d = true.
Proof.
  split; [|split; [|split]].
  - exact (proj1 (C1_degenerate_categories (Example.attached DONE DOING)
             [] (mkCategory "browDownLeft" 0.5) (drop 1 Example.halfSmile)
             [] (initialWorld Example.calibrated)) (or_introl eq_refl)).
  - exact (proj1 (proj2 (C1_degenerate_categories (Example.attached DONE DOING)
             (take 2 Example.halfSmile) (mkCategory "mouthSmileLeft" 0.5) []
             [] (initialWorld Example.calibrated)))
             MouthSmileLeft 0.25 eq_refl eq_refl).
  - exact (proj1 (proj2 (proj2 (C1_degenerate_categories
             (Example.attached DONE DOING)
             (take 1 Example.halfSmile) (mkCategory "mouthPressLeft" 0.5) []
             [] (initialWorld Example.calibrated))))
             MouthPressLeft 0 eq_refl eq_refl eq_refl eq_refl).
  - exact (proj2 (proj2 (proj2 (proj2 (C1_degenerate_categories
             (render_of (initialWorld Example.calibrated))
             (take 1 Example.halfSmile) (mkCategory "mouthPressLeft" 0.5)
             (drop 2 Example.halfSmile)
             [] (initialWorld Example.calibrated)))))
             ∅ [render_of (initialWorld Example.calibrated)]
             (reach_init ∅ Example.calibrated) (list_elem_of_here _ _)).
Defined.

(** The claim C1 makes, that a degenerate category leaves the blend factors
    as they are, fails on the pressed left corner of the half smile: both
    profiles hold [0] for it, and its factor becomes [Infinity]. *)
Lemma C1_counterexample :
  degenerate (Example.attached DONE DOING) (mkCategory "mouthPressLeft" 0.5)
  /\ add_factor (Example.attached DONE DOING) initialFactors
       (mkCategory "mouthPressLeft" 0.5)
     = mkBlend infinity 0 0 0
  /\ add_factor (Example.attached DONE DOING) initialFactors
       (mkCategory "mouthPressLeft" 0.5)
     <> initialFactors.
Proof.
  split; [|split].
  - right. right. reflexivity.
  - reflexivity.
  - discriminate.
Qed.

(** ** Prediction: which value is sampled *)

(** C2 fails on the code.  On the half smile, with the profiles of the
    example, the smile degree of the frame's own blend factors is
    [clamp01 ((1 + 1) / 200)], a positive number; [updateBlendValues]
    appends [0], the clamp of the [smileDegree] cell its render captured,
    and sets the cell to it again. *)
Theorem C2_sample_is_not_the_frame_value :
  let r := Example.attached DONE DOING in
  let w := initialWorld Example.calibrated in
  let w' := exec (updateBlendValues r [Example.halfSmile]) w in
  smileDegrees (globals w') = [0]
  /\ smileDegree (cells w') = 0
  /\ smileDegreeOf (blendFactorsOf r Example.halfSmile) = 2 / 200
  /\ (0 <? smileDegreeOf (blendFactorsOf r Example.halfSmile)) = true.
Proof. repeat split. Qed.

(** ** Prediction: the press categories *)

Section Press.

Implicit Types (r : Render) (c : Category) (bf : FaceLandmarkerBlendValues).

(** A smile category changes the smile fields in a way that depends on
    them alone. *)
Lemma add_factor_smile r bf bf' c :
  smile_named c ->
  mouthSmileLeft bf = mouthSmileLeft bf' ->
  mouthSmileRight bf = mouthSmileRight bf' ->
  mouthSmileLeft (add_factor r bf c) = mouthSmileLeft (add_factor r bf' c)
  /\ mouthSmileRight (add_factor r bf c) = mouthSmileRight (add_factor r bf' c).
Proof.
  intros Hc Hl Hr. unfold add_factor. cbv zeta.
  destruct Hc as [-> | ->]; simpl;
    destruct (blendValuesFromCalibration r !! _); simpl; by rewrite ?Hl, ?Hr.
Qed.

(** Any other category leaves the smile fields alone. *)
Lemma add_factor_other r bf c :
  ~ smile_named c ->
  mouthSmileLeft (add_factor r bf c) = mouthSmileLeft bf
  /\ mouthSmileRight (add_factor r bf c) = mouthSmileRight bf.
Proof.
  intros Hc. unfold add_factor, own_key. cbv zeta.
  repeat case_decide; simpl;
    try (exfalso; apply Hc; unfold smile_named; by auto);
    first [done | by destruct (blendValuesFromCalibration r !! categoryName c)].
Qed.

(** The smile fields of a frame's blend factors are those of its smile
    scores. *)
Lemma smile_fields_of_smile_scores r categories bf bf' :
  mouthSmileLeft bf = mouthSmileLeft bf' ->
  mouthSmileRight bf = mouthSmileRight bf' ->
  mouthSmileLeft (fold_left (add_factor r) categories bf)
  = mouthSmileLeft (fold_left (add_factor r) (smile_scores categories) bf')
  /\ mouthSmileRight (fold_left (add_factor r) categories bf)
     = mouthSmileRight (fold_left (add_factor r) (smile_scores categories) bf').
Proof.
  revert bf bf'. induction categories as [|c cs IH]; intros bf bf' Hl Hr; [done|].
  unfold smile_scores. rewrite filter_cons. fold (smile_scores cs).
  destruct (decide (smile_named c)) as [Hc|Hc]; simpl.
  - destruct (add_factor_smile r bf bf' c Hc Hl Hr) as [Hl' Hr'].
    by apply IH.
  - destruct (add_factor_other r bf c Hc) as [Hl' Hr'].
    apply IH; congruence.
Qed.

(** C10. Two frames with the same smile scores, handled from the same
    render in the same world, append the same smile-degree sample and set
    the cell to the same value, whatever their press scores are; the press
    scores do go into the blend factors, whose smile fields, and with them
    the smile degree of the specification's formula, are equal too. *)
Theorem C10_press_scores_do_not_reach_the_smile_degree
    r w categories1 rest1 categories2 rest2 :
  smile_scores categories1 = smile_scores categories2 ->
  let w1 := exec (updateBlendValues r (categories1 :: rest1)) w in
  let w2 := exec (updateBlendValues r (categories2 :: rest2)) w in
  smileDegrees (globals w1) = smileDegrees (globals w2)
  /\ (exists d, smileDegrees (globals w1) = smileDegrees (globals w) ++ [d])
  /\ smileDegree (cells w1) = smileDegree (cells w2)
  /\ mouthSmileLeft (blendFactorsOf r categories1)
     = mouthSmileLeft (blendFactorsOf r categories2)
  /\ mouthSmileRight (blendFactorsOf r categories1)
     = mouthSmileRight (blendFactorsOf r categories2)
  /\ smileDegreeOf (blendFactorsOf r categories1)
     = smileDegreeOf (blendFactorsOf r categories2).
Proof.
  intros Hs w1 w2.
  assert (Hf : mouthSmileLeft (blendFactorsOf r categories1)
               = mouthSmileLeft (blendFactorsOf r categories2)
               /\ mouthSmileRight (blendFactorsOf r categories1)
                  = mouthSmileRight (blendFactorsOf r categories2)).
  { unfold blendFactorsOf.
    destruct (smile_fields_of_smile_scores r categories1
                initialFactors initialFactors eq_refl eq_refl) as [-> ->].
    destruct (smile_fields_of_smile_scores r categories2
                initialFactors initialFactors eq_refl eq_refl) as [-> ->].
    by rewrite Hs. }
  destruct Hf as [Hl Hr].
  split; [done|]. split; [by eexists|]. split; [done|].
  split; [done|]. split; [done|].
  unfold smileDegreeOf. by rewrite Hl, Hr.
Qed.

End Press.

(** C10 on the half smile and on the same smile with other press scores. *)
Lemma C10_witness :
  let r := Example.attached DONE DOING in
  let w := initialWorld Example.calibrated in
  let pressed :=
    [ mkCategory "mouthPressRight" 1; mkCategory "mouthSmileLeft" 0.5;
      mkCategory "mouthPressLeft" 0.25; mkCategory "mouthSmileRight" 0.5 ] in
  let w1 := exec (updateBlendValues r [Example.halfSmile]) w in
  let w2 := exec (updateBlendValues r [pressed]) w in
  smileDegrees (globals w1) = smileDegrees (globals w2)
  /\ (exists d, smileDegrees (globals w1) = smileDegrees (globals w) ++ [d])
  /\ smileDegree (cells w1) = smileDegree (cells w2)
  /\ mouthSmileLeft (blendFactorsOf r Example.halfSmile)
     = mouthSmileLeft (blendFactorsOf r pressed)
  /\ mouthSmileRight (blendFactorsOf r Example.halfSmile)
     = mouthSmileRight (blendFactorsOf r pressed)
  /\ smileDegreeOf (blendFactorsOf r Example.halfSmile)
     = smileDegreeOf (blendFactorsOf r pressed).
Proof.
  intros r w pressed.
  exact (C10_press_scores_do_not_reach_the_smile_degree r w
           Example.halfSmile [] pressed [] eq_refl).
Defined.

(** ** Means *)

Section Means.

Implicit Types (xs : list number).

Lemma sum_snoc xs x : sum (xs ++ [x]) = sum xs + x.
Proof. unfold sum. by rewrite fold_left_app. Qed.

Lemma partial_sum_app xs ys n :
  (n <= length xs)%nat -> partial_sum (xs ++ ys) n = partial_sum xs n.
Proof.
  induction n as [|n IH]; intros Hn; [done|]. simpl.
  rewrite IH by lia. by rewrite lookup_app_l by lia.
Qed.

(** [reduce] adds the elements up in index order. *)
Lemma sum_partial_sum xs : sum xs = partial_sum xs (length xs).
Proof.
  induction xs as [|x xs IH] using rev_ind; [done|].
  rewrite sum_snoc, length_app, Nat.add_1_r. simpl.
  rewrite partial_sum_app by done.
  by rewrite list_lookup_middle, IH.
Qed.

(** What both [storeCalibrations] and [stopPrediction] compute is the
    arithmetic mean. *)
Lemma reduce_over_length xs : sum xs / length_number xs = arithmetic_mean xs.
Proof. unfold arithmetic_mean. by rewrite sum_partial_sum. Qed.

End Means.

(** ** Calibration: the stored profile *)

Section StoredProfile.

Variable initialBlendValues : Profile.


Lemma storeCalibrations_written r w :
  written r (exec (storeCalibrations initialBlendValues r) w)
  = fold_left (store_average (calibrationBlendValues (globals w))) keys
      initialBlendValues.
Proof. unfold written. hook_unfold. simpl. by case_decide. Qed.

(** C3, as the code has it.  For each of the four categories the profile
    that [storeCalibrations] writes holds the sum of the collected samples
    over their count: the arithmetic mean, which for an empty sample list
    is [0 / 0], a NaN, and not zero.  The entries of [initialBlendValues]
    under other names are kept. *)
Theorem C3_stored_profile r w k :
  let values := get (calibrationBlendValues (globals w)) k in
  let profile := written r (exec (storeCalibrations initialBlendValues r) w) in
  profile !! key_name k = Some (arithmetic_mean values)
  /\ (values = [] -> profile !! key_name k = Some nan)
  /\ (forall name, own_key name = None ->
        profile !! name = initialBlendValues !! name).
Proof.
  intros values profile. subst profile. rewrite storeCalibrations_written.
  unfold keys, store_average. simpl. rewrite !reduce_over_length.
  split; [|split].
  - subst values. by destruct k; simplify_map_eq.
  - subst values. intros Hnil. destruct k; simpl in *; simplify_map_eq;
      by rewrite Hnil.
  - intros name Hname. unfold own_key in Hname.
    repeat case_decide; try done. by simplify_map_eq.
Qed.

End StoredProfile.

(** The claim C3 makes for an empty sample list fails: finalising a pass in
    which no frame was processed stores NaN, for instance under
    [mouthSmileLeft]. *)
Lemma C3_counterexample :
  let r := Example.attached DOING READY in
  let w := initialWorld Example.calibrated in
  mouthSmileLeft (calibrationBlendValues (globals w)) = []
  /\ exists v,
       smileBlendValues (store (exec (storeCalibrations ∅ r) w))
         !! "mouthSmileLeft" = Some v
       /\ is_nan v = true
       /\ (v =? 0) = false.
Proof. split; [done|]. by exists nan. Qed.

(** ** Prediction: the value a session returns *)

Section Session.

Lemma feed_smileDegrees fs w :
  Forall (fun f => f.2 <> []) fs ->
  smileDegrees (globals (feed fs w))
  = smileDegrees (globals w)
    ++ map (fun f => clamp01 (smileDegree (state f.1))) fs.
Proof.
  revert w. induction fs as [|[r faces] fs IH]; intros w Hfs; simpl.
  - by rewrite app_nil_r.
  - apply Forall_cons in Hfs as [Hfaces Hfs]. rewrite IH by done.
    destruct faces as [|categories rest]; [done|].
    change (smileDegrees (globals (exec (updateBlendValues r (categories :: rest)) w)))
      with (smileDegrees (globals w) ++ [clamp01 (smileDegree (state r))]).
    by rewrite <- app_assoc.
Qed.

(** Without a landmarker or without a video [stopPrediction] returns
    [undefined] and only writes to the console. *)
Lemma stopPrediction_undefined r w :
  faceLandmarker (state r) = false \/ video (state r) = None ->
  eval (stopPrediction r) w = Normal None
  /\ globals (exec (stopPrediction r) w) = globals w
  /\ cells (exec (stopPrediction r) w) = cells w.
Proof. intros [H | H]; hook_unfold; rewrite H; simpl; by hook_cases. Qed.

(** C4, as the code has it.  After [startPrediction] and the frames fed
    since, the samples are one per frame.  Called from a render with a
    landmarker and a video, [stopPrediction] returns their sum over their
    count: the arithmetic mean, which for no samples is [0 / 0], a NaN.
    Called from a render without a landmarker or without a video it
    returns [undefined], and leaves the samples and every cell as they
    are. *)
Theorem C4_stopPrediction_returns_the_mean r0 fs r w :
  Forall (fun f => f.2 <> []) fs ->
  let collected := map (fun f => clamp01 (smileDegree (state f.1))) fs in
  let w1 := feed fs (exec (startPrediction r0) w) in
  smileDegrees (globals w1) = collected
  /\ (forall v,
        faceLandmarker (state r) = true ->
        video (state r) = Some v ->
        eval (stopPrediction r) w1 = Normal (Some (arithmetic_mean collected))
        /\ (fs = [] -> eval (stopPrediction r) w1 = Normal (Some nan)))
  /\ (faceLandmarker (state r) = false \/ video (state r) = None ->
      eval (stopPrediction r) w1 = Normal None
      /\ globals (exec (stopPrediction r) w1) = globals w1
      /\ cells (exec (stopPrediction r) w1) = cells w1).
Proof.
  intros Hfs collected w1.
  assert (Hc : smileDegrees (globals w1) = collected).
  { subst w1. by rewrite feed_smileDegrees. }
  split; [done|]. split.
  - intros v Hl Hv.
    assert (He : eval (stopPrediction r) w1
                 = Normal (Some (arithmetic_mean collected))).
    { hook_unfold. rewrite Hl, Hv. simpl.
      by rewrite Hc, reduce_over_length. }
    split; [done|]. intros ->. by rewrite He.
  - apply stopPrediction_undefined.
Qed.

End Session.

(** C4 on a session of two frames, stopped from a render that has the
    landmarker and the video, and from the first render, which has
    neither. *)
Lemma C4_witness :
  let r := Example.attached DONE DOING in
  let first := render_of (initialWorld Example.calibrated) in
  let fs := [(r, [Example.halfSmile]); (r, [Example.malformed])] in
  let w1 := feed fs (exec (startPrediction r) (initialWorld Example.calibrated)) in
  smileDegrees (globals w1) = [0; 0]
  /\ eval (stopPrediction r) w1 = Normal (Some (arithmetic_mean [0; 0]))
  /\ eval (stopPrediction first) w1 = Normal None
  /\ globals (exec (stopPrediction first) w1) = globals w1
  /\ cells (exec (stopPrediction first) w1) = cells w1.
Proof.
  intros r first fs w1.
  assert (Hfs : Forall (fun f : Render * FaceBlendshapes => f.2 <> []) fs)
    by (repeat constructor; discriminate).
  split; [|split].
  - exact (proj1 (C4_stopPrediction_returns_the_mean r fs r
             (initialWorld Example.calibrated) Hfs)).
  - exact (proj1 (proj1 (proj2 (C4_stopPrediction_returns_the_mean r fs r
             (initialWorld Example.calibrated) Hfs)) 1%nat eq_refl eq_refl)).
  - exact (proj2 (proj2 (C4_stopPrediction_returns_the_mean r fs first
             (initialWorld Example.calibrated) Hfs)) (or_introl eq_refl)).
Defined.

(** The claim C4 makes for a session without samples fails: the value
    returned is NaN, not [0]; and the status cell that is set to [DONE] is
    the calibration one, the prediction status staying [DOING]. *)
Lemma C4_counterexample :
  let r := Example.attached READY DOING in
  let w := exec (startPrediction r) (initialWorld Example.calibrated) in
  smileDegrees (globals w) = []
  /\ eval (stopPrediction r) w = Normal (Some nan)
  /\ is_nan nan = true
  /\ predictionStatus (cells (exec (stopPrediction r) w)) = DOING
  /\ calibrationStatus (cells (exec (stopPrediction r) w)) = DONE.
Proof. repeat split. Qed.

(** ** Calibration: starting a pass *)

Section Start.

Variable initialBlendValues : Profile.

(** C9. Called from a render in which no video is attached,
    [startCalibration] does not throw and changes nothing but the console,
    to which it writes its name and the diagnostic: the status, the sample
    buffers, the other cells and module variables, the store, the refs,
    the timers and the animation-frame requests are as before. *)
Theorem C9_startCalibration_without_video r w :
  video (state r) = None ->
  let w' := exec (startCalibration r) w in
  eval (startCalibration r) w = Normal tt
  /\ calibrationStatus (cells w') = calibrationStatus (cells w)
  /\ calibrationBlendValues (globals w') = calibrationBlendValues (globals w)
  /\ timeouts (host w') = timeouts (host w)
  /\ globals w' = globals w
  /\ cells w' = cells w
  /\ store w' = store w
  /\ refs w' = refs w
  /\ frames (host w') = frames (host w)
  /\ detectCalls (host w') = detectCalls (host w)
  /\ console (host w')
     = console (host w) ++ ["startCalibration"; "Wait! video not loaded yet."].
Proof.
  intros Hv. hook_unfold. rewrite Hv. simpl.
  rewrite <- app_assoc. by repeat split.
Qed.

(** When the webcam interface is there, [initFacelandmarks] moves both
    statuses to [READY]. *)
Lemma initFacelandmarks_ready landmarker w :
  let w' := exec (initFacelandmarks landmarker true) w in
  calibrationStatus (cells w') = READY /\ predictionStatus (cells w') = READY.
Proof. split; reflexivity. Qed.

(** The window expiring: [stopCalibration] sets the status to [DONE],
    writes the profile and detaches the video. *)
Lemma stopCalibration_done r w :
  let w' := exec (stopCalibration initialBlendValues r) w in
  calibrationStatus (cells w') = DONE
  /\ video (cells w') = None
  /\ written r w'
     = fold_left (store_average (calibrationBlendValues (globals w))) keys
         initialBlendValues.
Proof. unfold written. hook_unfold. simpl. by case_decide. Qed.

(** C6, as the code has it.  [startCalibration] is guarded by the video
    alone: called from a render with a video attached it empties the
    sample buffers, zeroes the frame count, sets the status to [DOING] and
    arms one more 2000 ms timer for [stopCalibration], whatever the status
    was, [DOING] included.  When a timer fires, the status becomes [DONE],
    the profile is written and the video is detached.  Before all that,
    [initFacelandmarks] takes the status to [READY]. *)
Theorem C6_calibration_pass r w v :
  video (state r) = Some v ->
  let w1 := exec (startCalibration r) w in
  eval (startCalibration r) w = Normal tt
  /\ calibrationStatus (cells w1) = DOING
  /\ calibrationBlendValues (globals w1) = emptySamples
  /\ calibrationFrames (cells w1) = 0
  /\ timeouts (host w1) = timeouts (host w) ++ [(CbStopCalibration r, 2000)]
  /\ (forall t w2,
        let w3 := exec (run_callback initialBlendValues (CbStopCalibration r) t) w2 in
        calibrationStatus (cells w3) = DONE
        /\ video (cells w3) = None
        /\ forall k, written r w3 !! key_name k
             = Some (arithmetic_mean (get (calibrationBlendValues (globals w2)) k)))
  /\ (forall landmarker w0,
        calibrationStatus (cells (exec (effect_video r landmarker true) w0))
        = READY).
Proof.
  intros Hv w1.
  split; [by hook_unfold; rewrite Hv|].
  split; [by subst w1; hook_unfold; rewrite Hv|].
  split; [by subst w1; hook_unfold; rewrite Hv|].
  split; [by subst w1; hook_unfold; rewrite Hv|].
  split; [by subst w1; hook_unfold; rewrite Hv|].
  split.
  - intros t w2 w3. subst w3. simpl.
    destruct (stopCalibration_done r w2) as (Hs & Hd & Hw).
    split; [done|]. split; [done|]. intros k.
    rewrite Hw. unfold keys, store_average. simpl. rewrite !reduce_over_length.
    by destruct k; simplify_map_eq.
  - intros landmarker w0. unfold effect_video. rewrite Hv.
    apply initFacelandmarks_ready.
Qed.

End Start.

(** C9 at the first render, before any video node was set. *)
Lemma C9_witness :
  let r := render_of (initialWorld Example.calibrated) in
  let w := initialWorld Example.calibrated in
  let w' := exec (startCalibration r) w in
  eval (startCalibration r) w = Normal tt
  /\ calibrationStatus (cells w') = calibrationStatus (cells w)
  /\ calibrationBlendValues (globals w') = calibrationBlendValues (globals w)
  /\ timeouts (host w') = timeouts (host w)
  /\ globals w' = globals w
  /\ cells w' = cells w
  /\ store w' = store w
  /\ refs w' = refs w
  /\ frames (host w') = frames (host w)
  /\ detectCalls (host w') = detectCalls (host w)
  /\ console (host w')
     = console (host w) ++ ["startCalibration"; "Wait! video not loaded yet."].
Proof.
  exact (C9_startCalibration_without_video
           (render_of (initialWorld Example.calibrated))
           (initialWorld Example.calibrated) eq_refl).
Defined.


(** The claim C6 makes for a second start fails: [startCalibration] called
    while the status is [DOING], one frame into the pass, is not a no-op.
    It throws the collected samples away and arms a second timer. *)
Lemma C6_counterexample :
  let r := render_of Pass.sampled in
  let w' := exec (startCalibration r) Pass.sampled in
  calibrationStatus (state r) = DOING
  /\ calibrationStatus (cells Pass.sampled) = DOING
  /\ calibrationBlendValues (globals Pass.sampled)
     = mkBlend [0.5] [] [0.5] [0.5]
  /\ calibrationBlendValues (globals w') = emptySamples
  /\ calibrationFrames (cells Pass.sampled) = 1
  /\ calibrationFrames (cells w') = 0
  /\ length (timeouts (host Pass.sampled)) = 1%nat
  /\ length (timeouts (host w')) = 2%nat.
Proof. repeat split. Qed.

(** C6 on a first start, from [READY]. *)
Lemma C6_witness :
  let r := render_of Pass.ready in
  let w := Pass.ready in
  let w1 := exec (startCalibration r) w in
  eval (startCalibration r) w = Normal tt
  /\ calibrationStatus (cells w1) = DOING
  /\ calibrationBlendValues (globals w1) = emptySamples
  /\ calibrationFrames (cells w1) = 0
  /\ timeouts (host w1) = timeouts (host w) ++ [(CbStopCalibration r, 2000)]
  /\ (forall t w2,
        let w3 := exec (run_callback ∅ (CbStopCalibration r) t) w2 in
        calibrationStatus (cells w3) = DONE
        /\ video (cells w3) = None
        /\ forall k, written r w3 !! key_name k
             = Some (arithmetic_mean (get (calibrationBlendValues (globals w2)) k)))
  /\ (forall landmarker w0,
        calibrationStatus (cells (exec (effect_video r landmarker true) w0))
        = READY).
Proof.
  exact (C6_calibration_pass ∅ (render_of Pass.ready) Pass.ready 1%nat eq_refl).
Defined.

(** ** Sampling: one detection per video frame *)

Section SameFrame.

Implicit Types (l : Loop) (r : Render) (t : Tick) (w : World).


(** A call from a render without a video, or made while the service has no
    landmarker, stops at its guard: nothing is detected, sampled or
    requested. *)
Lemma sample_guard l r t w :
  serviceLandmarker t = false \/ video (state r) = None ->
  let w' := exec (sample l r t) w in
  globals w' = globals w /\ cells w' = cells w /\ refs w' = refs w
  /\ frames (host w') = frames (host w)
  /\ detectCalls (host w') = detectCalls (host w).
Proof.
  intros [H | H]; destruct l; unfold sample, doCalibration, predictWebcam;
    rewrite H; try destruct (serviceLandmarker t); done.
Qed.

(** A call that gets past its guard leaves [lastVideoTime] equal to the
    frame's time, and has asked the detector at most once. *)
Lemma sample_seen l r t w v :
  serviceLandmarker t = true ->
  video (state r) = Some v ->
  is_nan (currentTime t) = false ->
  let w' := exec (sample l r t) w in
  (lastVideoTime (globals w') =? currentTime t) = true
  /\ (length (detectCalls (host w')) <= S (length (detectCalls (host w))))%nat.
Proof.
  intros Hs Hv Hn. unfold is_nan in Hn. apply negb_false_iff in Hn.
  destruct l; hook_unfold; rewrite Hs, Hv; unfold strict_neq; simpl;
    destruct (lastVideoTime (globals w) =? currentTime t) eqn:Hlast; simpl;
    hook_cases; rewrite ?length_app; simpl; (split; [done|lia]).
Qed.

(** A call that finds [lastVideoTime] equal to the frame's time does not
    ask the detector and adds no sample. *)
Lemma sample_skip l r t w :
  (lastVideoTime (globals w) =? currentTime t) = true ->
  let w' := exec (sample l r t) w in
  sampled_state w' = sampled_state w
  /\ lastVideoTime (globals w') = lastVideoTime (globals w).
Proof.
  intros Hlast.
  destruct l; hook_unfold; unfold strict_neq, sampled_state; simpl;
    hook_cases; try done;
    match goal with H : negb _ = true |- _ => by rewrite Hlast in H end.
Qed.

Lemma samples_skip cs time w :
  Forall (fun c => currentTime c.2 = time) cs ->
  (lastVideoTime (globals w) =? time) = true ->
  sampled_state (samples cs w) = sampled_state w.
Proof.
  revert w. induction cs as [|[[l r] t] cs IH]; intros w Hcs Hlast; [done|].
  apply Forall_cons in Hcs as [Ht Hcs]. simpl in Ht. subst time. simpl.
  destruct (sample_skip l r t w Hlast) as [Hsame Htime].
  rewrite IH; [done|done|by rewrite Htime].
Qed.

(** C7. Once a sampling call of either loop has seen a video frame, all
    the calls that follow while [currentTime] stays the same, however many
    and of whichever loop, skip it: the detector is not asked again and
    neither the calibration buffers nor the smile-degree samples grow.  The
    frame costs one detector call at most. *)
Theorem C7_same_frame_is_detected_once l r t v rest w :
  serviceLandmarker t = true ->
  video (state r) = Some v ->
  is_nan (currentTime t) = false ->
  Forall (fun c => currentTime c.2 = currentTime t) rest ->
  let w1 := exec (sample l r t) w in
  let w2 := samples rest w1 in
  (length (detectCalls (host w1)) <= S (length (detectCalls (host w))))%nat
  /\ detectCalls (host w2) = detectCalls (host w1)
  /\ calibrationBlendValues (globals w2) = calibrationBlendValues (globals w1)
  /\ smileDegrees (globals w2) = smileDegrees (globals w1).
Proof.
  intros Hs Hv Hn Hrest w1 w2.
  destruct (sample_seen l r t w v Hs Hv Hn) as [Hlast Hle].
  pose proof (samples_skip rest (currentTime t) w1 Hrest Hlast) as Hsame.
  unfold sampled_state in Hsame. fold w2 in Hsame.
  injection Hsame as Hd Hc Hsm. by repeat split.
Qed.

End SameFrame.

(** C7 on three ticks of the same frame: a calibration call that detects,
    then a prediction call and a calibration call that skip. *)
Lemma C7_witness :
  let r := Example.attached DOING DOING in
  let t := Example.tick 1 Example.halfSmile in
  let w := initialWorld Example.calibrated in
  let w1 := exec (sample Calibration r t) w in
  let w2 := samples [(Prediction, r, t); (Calibration, r, t)] w1 in
  (length (detectCalls (host w1)) <= S (length (detectCalls (host w))))%nat
  /\ detectCalls (host w2) = detectCalls (host w1)
  /\ calibrationBlendValues (globals w2) = calibrationBlendValues (globals w1)
  /\ smileDegrees (globals w2) = smileDegrees (globals w1).
Proof.
  intros r t w.
  refine (C7_same_frame_is_detected_once Calibration r t 1%nat
            [(Prediction, r, t); (Calibration, r, t)] w
            eq_refl eq_refl eq_refl _).
  by repeat constructor.
Defined.

(** ** The sampling loops and their teardown *)

Section Loops.

Variable initialBlendValues : Profile.

Implicit Types (r : Render) (t : Tick) (w : World).


(** The calibration loop requests its next frame only from a render whose
    status is [DOING]. *)
Lemma doCalibration_stops r t w :
  calibrationStatus (state r) <> DOING ->
  frames (host (exec (doCalibration r t) w)) = frames (host w)
  /\ refs (exec (doCalibration r t) w) = refs w.
Proof. intros Hs. hook_unfold. simpl. by hook_cases. Qed.

Lemma effect_calibration_stops r w :
  calibrationStatus (state r) <> DOING -> exec (effect_calibration r) w = w.
Proof. intros Hs. hook_unfold. by hook_cases. Qed.

Lemma effect_prediction_stops r memo w :
  predictionStatus (state r) <> DOING ->
  exec (effect_prediction r memo) w = w.
Proof. intros Hs. hook_unfold. by hook_cases. Qed.

(** The prediction loop has no such test: past its guard, it requests its
    next frame whatever the prediction status of its render is. *)
Lemma predictWebcam_reschedules r t w v :
  serviceLandmarker t = true ->
  video (state r) = Some v ->
  let w' := exec (predictWebcam r t) w in
  eval (predictWebcam r t) w = Normal tt
  /\ frames (host w')
     = frames (host w) ++ [(nextHandle (host w), CbPredictWebcam r)]
  /\ predictRequestRef (refs w') = Some (nextHandle (host w)).
Proof.
  intros Hs Hv. hook_unfold. rewrite Hs, Hv. simpl.
  destruct (strict_neq _ _); simpl; [destruct (detected t); simpl|]; done.
Qed.


(** The cleanup cancels the requests the two refs name, and no other. *)
Lemma cleanup_video_pending r w v e :
  video (state r) = Some v ->
  e ∈ frames (host (exec (cleanup_video r) w))
  <-> e ∈ frames (host w)
      /\ ~ names (calibrateRequestRef (refs w)) e.1
      /\ ~ names (predictRequestRef (refs w)) e.1.
Proof.
  intros Hv. unfold names. hook_unfold. rewrite Hv. simpl.
  destruct (calibrateRequestRef (refs w)) as [[|c]|]; simpl;
    destruct (predictRequestRef (refs w)) as [[|p]|]; simpl;
    rewrite ?list_elem_of_filter; simpl; firstorder congruence.
Qed.

End Loops.


(** C5 fails on the code.  In the run of [Pass] and [Teardown] the
    calibration status is [DOING] throughout.  The first frame is sampled
    and [doCalibration] requests the next one (handle 2); the re-render
    that [setCalibrationFrames] causes gives a new [doCalibration], so the
    calibration effect runs again and requests a frame as well (handle 3),
    which is the one [calibrateRequestRef] then holds.  The cleanup of the
    teardown cancels that one and leaves the other pending.  Served after
    the teardown, on a new video frame, it calls the detector, adds the
    frame's scores to the buffers and requests yet another frame. *)
Theorem C5_teardown_leaves_a_request :
  calibrationStatus (cells Teardown.rerendered) = DOING
  /\ frames (host Teardown.rerendered)
     = [ (2%nat, CbDoCalibration (render_of Pass.started));
         (3%nat, CbDoCalibration (render_of Pass.sampled)) ]
  /\ calibrateRequestRef (refs Teardown.rerendered) = Some 3%nat
  /\ frames (host Teardown.unmounted)
     = [ (2%nat, CbDoCalibration (render_of Pass.started)) ]
  /\ length (detectCalls (host Teardown.unmounted)) = 1%nat
  /\ mouthSmileLeft (calibrationBlendValues (globals Teardown.unmounted))
     = [0.5]
  /\ length (detectCalls (host Teardown.afterwards)) = 2%nat
  /\ mouthSmileLeft (calibrationBlendValues (globals Teardown.afterwards))
     = [0.5; 0.5]
  /\ map fst (frames (host Teardown.afterwards)) = [4%nat].
Proof. repeat apply conj; vm_compute; reflexivity. Qed.

(** * Further properties of the hook *)

(** ** Definitions *)

#[global] Instance BlendName_eq_dec : EqDecision BlendName.
Proof. solve_decision. Defined.

(** The scores a frame carries under one of the four names, in the order
    of the frame. *)
Definition scores_of (k : BlendName) (categories : list Category) : list number :=
  map score (filter (fun c => own_key (categoryName c) = Some k) categories).

(** A run of the calibration loop: [doCalibration] once per tick, each
    from the closure of some render. *)
Fixpoint calibrate (cs : list (Render * Tick)) (w : World) : World :=
  match cs with
  | [] => w
  | (r, t) :: cs' => calibrate cs' (exec (doCalibration r t) w)
  end.

(** The frames a run of ticks gets sampled, given the video time seen
    last: a tick counts when its time differs from the one before it and
    the detector found a face, whose categories are then taken. *)
Fixpoint processed (last : number) (ts : list Tick) : list (list Category) :=
  match ts with
  | [] => []
  | t :: ts' =>
      if strict_neq last (currentTime t) then
        match detected t with
        | categories :: _ => categories :: processed (currentTime t) ts'
        | [] => processed (currentTime t) ts'
        end
      else processed last ts'
  end.

(** A sampling call gets past its guard. *)
Definition guarded (c : Render * Tick) : Prop :=
  serviceLandmarker c.2 = true /\ video (state c.1) <> None.

(** One list continues another. *)
Definition extends {A} (l' l : list A) : Prop := exists more, l' = l ++ more.

(** The terms a frame adds to the blend factor of one name: for each of
    its categories of that name, in frame order, the score over the
    difference of the two profile values, provided the baseline profile
    has the entry. *)
Definition factor_terms (r : Render) (k : BlendName)
    (categories : list Category) : list number :=
  omap (fun c =>
          if decide (own_key (categoryName c) = Some k) then
            match blendValuesFromCalibration r !! categoryName c with
            | Some baseline =>
                Some (score c
                      / (to_number
                           (smileBlendValuesFromCalibration r !! categoryName c)
                         - baseline))
            | None => None
            end
          else None) categories.

(** A prediction session on top of a world: started, two frames sampled,
    stopped. *)
Module Session.

Definition begun : World :=
  exec (perform ∅ StartPrediction (render_of Pass.ready)) Pass.ready.
Definition first : World :=
  exec (perform ∅ (PredictWebcam (Example.tick 1 Example.halfSmile))
          (render_of begun)) begun.
Definition second : World :=
  exec (perform ∅ (PredictWebcam (Example.tick 2 Example.malformed))
          (render_of first)) first.
Definition ended : World :=
  exec (perform ∅ StopPrediction (render_of second)) second.

Definition renders : list Render :=
  [render_of ended; render_of second; render_of first; render_of begun;
   render_of Pass.ready; render_of Pass.withVideo; render_of Pass.mounted].

End Session.

(** What a sampling call leaves behind, the console apart. *)
Definition observed (w : World) :=
  (globals w, cells w, store w, refs w, frames (host w), detectCalls (host w)).

(** ** Calibration: what the buffers collect *)

Section Buffers.

Implicit Types (o : DuringCalibrationBlendValues) (c : Category).

Lemma push_sample_get o c k :
  get (push_sample o c) k
  = get o k ++ (if decide (own_key (categoryName c) = Some k) then [score c] else []).
Proof.
  unfold push_sample. cbv zeta.
  destruct (own_key (categoryName c)) as [k'|]; simpl.
  - case_decide as Hk.
    + injection Hk as ->. by destruct k.
    + rewrite app_nil_r. destruct k, k'; try done.
  - by rewrite app_nil_r.
Qed.

Lemma fold_push_sample_get o categories k :
  get (fold_left push_sample categories o) k
  = get o k ++ scores_of k categories.
Proof.
  revert o. induction categories as [|c cs IH]; intros o; simpl.
  - unfold scores_of. simpl. by rewrite app_nil_r.
  - rewrite IH, push_sample_get. unfold scores_of. rewrite filter_cons.
    case_decide; simpl; by rewrite <- ?app_assoc, ?app_nil_r.
Qed.

(** X1. Sampling a frame appends to each of the four buffers the frame's
    scores of that name, in frame order and with repetitions; categories
    of any other name are ignored. *)
Theorem X1_buffers_collect_by_name o categories k :
  get (fold_left push_sample categories o) k
  = get o k ++ scores_of k categories.
Proof. apply fold_push_sample_get. Qed.

Lemma fold_push_sample_concat o (frames : list (list Category)) first :
  fold_left push_sample (concat (first :: frames)) o
  = fold_left push_sample (concat frames) (fold_left push_sample first o).
Proof. simpl. by rewrite fold_left_app. Qed.

(** What one guarded [doCalibration] does to the module variables. *)
Lemma doCalibration_globals r t w :
  guarded (r, t) ->
  let w' := exec (doCalibration r t) w in
  lastVideoTime (globals w')
  = (if strict_neq (lastVideoTime (globals w)) (currentTime t)
     then currentTime t else lastVideoTime (globals w))
  /\ calibrationBlendValues (globals w')
     = fold_left push_sample
         (concat (processed (lastVideoTime (globals w)) [t]))
         (calibrationBlendValues (globals w))
  /\ smileDegrees (globals w') = smileDegrees (globals w).
Proof.
  intros [Hs Hv]. simpl in Hs, Hv.
  destruct (video (state r)) as [v|] eqn:Hvideo; [|done].
  hook_unfold. rewrite Hs, Hvideo. simpl.
  destruct (strict_neq (lastVideoTime (globals w)) (currentTime t)); simpl;
    [|done].
  destruct (detected t) as [|categories rest]; simpl; [done|].
  rewrite app_nil_r. by case_decide.
Qed.

Lemma processed_cons last t ts :
  processed last (t :: ts)
  = processed last [t]
    ++ processed (if strict_neq last (currentTime t)
                  then currentTime t else last) ts.
Proof.
  simpl. destruct (strict_neq last (currentTime t)); [|done].
  by destruct (detected t).
Qed.

Lemma calibrate_collects cs w k :
  Forall guarded cs ->
  get (calibrationBlendValues (globals (calibrate cs w))) k
  = get (calibrationBlendValues (globals w)) k
    ++ scores_of k (concat (processed (lastVideoTime (globals w)) (map snd cs)))
  /\ smileDegrees (globals (calibrate cs w)) = smileDegrees (globals w).
Proof.
  intros Hcs.
  assert (H : calibrationBlendValues (globals (calibrate cs w))
              = fold_left push_sample
                  (concat (processed (lastVideoTime (globals w)) (map snd cs)))
                  (calibrationBlendValues (globals w))
              /\ smileDegrees (globals (calibrate cs w)) = smileDegrees (globals w)).
  { revert w. induction cs as [|[r t] cs IH]; intros w; [done|].
    apply Forall_cons in Hcs as [Hc Hcs]. simpl calibrate. simpl map.
    destruct (doCalibration_globals r t w Hc) as (Hlast & Hbuf & Hsm).
    destruct (IH Hcs (exec (doCalibration r t) w)) as [-> ->].
    split; [|done].
    rewrite (processed_cons _ t (map snd cs)), concat_app, fold_left_app.
    by rewrite Hlast, Hbuf. }
  destruct H as [-> ->]. split; [|done]. apply fold_push_sample_get.
Qed.

(** X2. A run of the calibration loop, from whichever closures, leaves in
    each buffer what it held before followed by the scores of exactly the
    frames that count: those whose video time differs from the time seen
    just before and in which a face was found.  The prediction samples are
    not touched. *)
Theorem X2_calibration_run_collects cs w k :
  Forall guarded cs ->
  let w' := calibrate cs w in
  get (calibrationBlendValues (globals w')) k
  = get (calibrationBlendValues (globals w)) k
    ++ scores_of k (concat (processed (lastVideoTime (globals w)) (map snd cs)))
  /\ smileDegrees (globals w') = smileDegrees (globals w).
Proof. apply calibrate_collects. Qed.

End Buffers.

(** X2 on three ticks, the second showing the first frame again. *)
Lemma X2_witness :
  let r := Example.attached DOING READY in
  let quarter := [mkCategory "mouthSmileLeft" 0.25] in
  let cs := [ (r, Example.tick 1 Example.halfSmile);
              (r, Example.tick 1 Example.malformed);
              (r, Example.tick 2 quarter) ] in
  let w := initialWorld Example.calibrated in
  let w' := calibrate cs w in
  get (calibrationBlendValues (globals w')) MouthSmileLeft
  = get (calibrationBlendValues (globals w)) MouthSmileLeft ++ [0.5; 0.25]
  /\ smileDegrees (globals w') = smileDegrees (globals w).
Proof.
  intros r quarter cs w.
  refine (X2_calibration_run_collects cs w MouthSmileLeft _).
  repeat constructor; done.
Defined.

(** ** Calibration: a whole pass *)

Section WholePass.

Variable initialBlendValues : Profile.

Lemma store_average_lookup samples k :
  fold_left (store_average samples) keys initialBlendValues !! key_name k
  = Some (arithmetic_mean (get samples k)).
Proof.
  unfold keys, store_average. simpl. rewrite !reduce_over_length.
  by destruct k; simplify_map_eq.
Qed.

(** X3. A pass from start to expiry: after [startCalibration], a run of
    the calibration loop and [stopCalibration], the profile written holds
    under each of the four names the arithmetic mean of the scores of that
    name in the frames that counted, and of nothing collected before the
    start. *)
Theorem X3_pass_stores_the_average r0 v cs r w k :
  video (state r0) = Some v ->
  Forall guarded cs ->
  let w' := exec (stopCalibration initialBlendValues r)
              (calibrate cs (exec (startCalibration r0) w)) in
  written r w' !! key_name k
  = Some (arithmetic_mean
            (scores_of k
               (concat (processed (lastVideoTime (globals w)) (map snd cs))))).
Proof.
  intros Hv Hcs. simpl.
  destruct (stopCalibration_done initialBlendValues r
              (calibrate cs (exec (startCalibration r0) w))) as (_ & _ & ->).
  rewrite store_average_lookup.
  destruct (calibrate_collects cs (exec (startCalibration r0) w) k Hcs)
    as [-> _].
  assert (Hstart : calibrationBlendValues (globals (exec (startCalibration r0) w))
                   = emptySamples
                   /\ lastVideoTime (globals (exec (startCalibration r0) w))
                      = lastVideoTime (globals w)).
  { hook_unfold. by rewrite Hv. }
  destruct Hstart as [-> ->]. by destruct k.
Qed.

End WholePass.

(** X3 on a pass of three ticks, the second showing the first frame
    again: the left smile averages [0.5] and [0.25]. *)
Lemma X3_witness :
  let r := Example.attached DOING READY in
  let quarter := [mkCategory "mouthSmileLeft" 0.25] in
  let cs := [ (r, Example.tick 1 Example.halfSmile);
              (r, Example.tick 1 Example.malformed);
              (r, Example.tick 2 quarter) ] in
  let w' := exec (stopCalibration ∅ r)
              (calibrate cs (exec (startCalibration r)
                 (initialWorld Example.calibrated))) in
  written r w' !! key_name MouthSmileLeft
  = Some (arithmetic_mean [0.5; 0.25]).
Proof.
  intros r quarter cs.
  refine (X3_pass_stores_the_average ∅ r 1%nat cs r
            (initialWorld Example.calibrated) MouthSmileLeft eq_refl _).
  repeat constructor; done.
Defined.

(** ** Calibration: how the loop goes on *)

Section CalibrationLoop.

Implicit Types (r : Render) (t : Tick) (w : World).

(** X4. The calibration loop does not survive a frame it cannot use: when
    [doCalibration] meets the video time it saw last, or the detector
    finds no face, it returns before requesting the next frame, whatever
    the status of its render is, [DOING] included.  The cells, the refs,
    the buffers and the pending requests are as before. *)
Theorem X4_calibration_loop_stalls r t w :
  (lastVideoTime (globals w) =? currentTime t) = true \/ detected t = [] ->
  let w' := exec (doCalibration r t) w in
  frames (host w') = frames (host w)
  /\ refs w' = refs w
  /\ cells w' = cells w
  /\ calibrationBlendValues (globals w') = calibrationBlendValues (globals w).
Proof.
  intros [Hlast | Hnone]; hook_unfold; unfold strict_neq; simpl;
    hook_cases; try done;
    first [ match goal with H : negb _ = true |- _ => by rewrite Hlast in H end
          | congruence ].
Qed.

(** X5. The frame count does not add up inside one closure: however many
    frames a run of [doCalibration] from the closure of one render
    samples, the [calibrationFrames] cell ends as it was or at the count
    that render captured plus one. *)
Theorem X5_frame_count_is_the_closure_s r ts w :
  let w' := calibrate (map (fun t => (r, t)) ts) w in
  calibrationFrames (cells w') = calibrationFrames (cells w)
  \/ calibrationFrames (cells w') = calibrationFrames (state r) + 1.
Proof.
  simpl. revert w. induction ts as [|t ts IH]; intros w; [by left|].
  simpl. destruct (IH (exec (doCalibration r t) w)) as [-> | ->]; [|by right].
  hook_unfold. simpl. hook_cases; auto.
Qed.

End CalibrationLoop.

(** X4 on the world of [Pass], one frame in, from its [DOING] render, on
    the frame already seen. *)
Lemma X4_witness :
  let r := render_of Pass.sampled in
  let w' := exec (doCalibration r (Example.tick 1 Example.malformed))
              Pass.sampled in
  frames (host w') = frames (host Pass.sampled)
  /\ refs w' = refs Pass.sampled
  /\ cells w' = cells Pass.sampled
  /\ calibrationBlendValues (globals w')
     = calibrationBlendValues (globals Pass.sampled).
Proof.
  exact (X4_calibration_loop_stalls (render_of Pass.sampled)
           (Example.tick 1 Example.malformed) Pass.sampled
           (or_introl eq_refl)).
Defined.

(** ** What a call can change *)

Section Footprints.

Variable initialBlendValues : Profile.

Implicit Types (c : Call) (r : Render) (w : World).

(** X6. The store is written by [stopCalibration] alone, which writes the
    one profile its render's mode selects; no call of the hook writes the
    mode. *)
Theorem X6_store_is_written_at_expiry_only c r w :
  let w' := exec (perform initialBlendValues c r) w in
  status (store w') = status (store w)
  /\ (c <> StopCalibration -> store w' = store w)
  /\ (calibrationStatusFromStore r = NEUTRAL ->
      smileBlendValues (store w') = smileBlendValues (store w))
  /\ (calibrationStatusFromStore r <> NEUTRAL ->
      blendValues (store w') = blendValues (store w)).
Proof.
  destruct c; hook_unfold; simpl; hook_cases;
    repeat split; try done; by destruct (store w).
Qed.

(** X7. Who writes the module-level variables.  [lastVideoTime] is set by
    the two sampling calls alone, to the video time they find, and is not
    reset by any start or stop.  The calibration buffers are emptied by
    [startCalibration] and extended by [doCalibration], and no other call
    touches them: a stop does not clear them.  The smile-degree samples
    are emptied by [startPrediction] and extended by one sample by
    [predictWebcam], and no other call touches them. *)
Theorem X7_module_variables_footprint c r w :
  let w' := exec (perform initialBlendValues c r) w in
  (lastVideoTime (globals w') = lastVideoTime (globals w)
   \/ exists t, (c = DoCalibration t \/ c = PredictWebcam t)
        /\ lastVideoTime (globals w') = currentTime t)
  /\ (calibrationBlendValues (globals w') = calibrationBlendValues (globals w)
      \/ (c = StartCalibration
          /\ calibrationBlendValues (globals w') = emptySamples)
      \/ exists t categories, c = DoCalibration t
           /\ calibrationBlendValues (globals w')
              = fold_left push_sample categories
                  (calibrationBlendValues (globals w)))
  /\ (smileDegrees (globals w') = smileDegrees (globals w)
      \/ (c = StartPrediction /\ smileDegrees (globals w') = [])
      \/ exists t d, c = PredictWebcam t
           /\ smileDegrees (globals w') = smileDegrees (globals w) ++ [d]).
Proof.
  destruct c; hook_unfold; simpl; hook_cases;
    (split; [|split]); eauto 10.
Qed.

(** X8. Nothing but the cleanup cancels.  A call never removes a timer, a
    console line or a recorded detector call, and, unless it is the
    cleanup of the video effect, never removes a pending animation-frame
    request: [stopCalibration] and [stopPrediction] leave the requests of
    their loops pending. *)
Theorem X8_only_the_cleanup_cancels c r w :
  let w' := exec (perform initialBlendValues c r) w in
  extends (timeouts (host w')) (timeouts (host w))
  /\ extends (console (host w')) (console (host w))
  /\ extends (detectCalls (host w')) (detectCalls (host w))
  /\ (c <> CleanupVideo -> extends (frames (host w')) (frames (host w))).
Proof.
  unfold extends.
  destruct c; hook_unfold; simpl; hook_cases;
    repeat split; try done; intros;
    rewrite <- ?app_assoc; first [by eexists | by exists []; rewrite app_nil_r].
Qed.

(** X9. The moves of the calibration status.  A call leaves it as it is,
    or it is the video effect finding the webcam interface, which sets
    [READY] (whatever the status was), or [startCalibration], which sets
    [DOING], or [stopCalibration] or [stopPrediction], which set [DONE]. *)
Theorem X9_calibration_status_moves c r w :
  let w' := exec (perform initialBlendValues c r) w in
  calibrationStatus (cells w') = calibrationStatus (cells w)
  \/ (calibrationStatus (cells w') = READY
      /\ exists landmarker, c = EffectVideo landmarker true)
  \/ (calibrationStatus (cells w') = DOING /\ c = StartCalibration)
  \/ (calibrationStatus (cells w') = DONE
      /\ (c = StopCalibration \/ c = StopPrediction)).
Proof. destruct c; hook_unfold; simpl; hook_cases; eauto 10. Qed.

(** The moves of the prediction status: to [READY] and to [DOING]. *)
Lemma prediction_status_moves c r w :
  let w' := exec (perform initialBlendValues c r) w in
  predictionStatus (cells w') = predictionStatus (cells w)
  \/ predictionStatus (cells w') = READY
  \/ predictionStatus (cells w') = DOING.
Proof. destruct c; hook_unfold; simpl; hook_cases; auto. Qed.

(** X10. The prediction status is never [DONE]: not in any world the hook
    can reach, and not in any render made on the way. *)
Theorem X10_prediction_is_never_done past w :
  reachable initialBlendValues past w ->
  predictionStatus (cells w) <> DONE
  /\ Forall (fun r => predictionStatus (state r) <> DONE) past.
Proof.
  induction 1 as [s|past w c r Hreach [Hw Hpast] Hr|past w s Hreach [Hw Hpast]].
  - split; [done|]. by repeat constructor.
  - assert (Hw' : predictionStatus (cells (exec (perform initialBlendValues c r) w))
                  <> DONE).
    { destruct (prediction_status_moves c r w) as [-> | [-> | ->]]; done. }
    split; [done|]. by constructor.
  - split; [done|]. by constructor.
Qed.

(** X11. Every smile degree the hook ever holds is exactly [0]: the cell,
    the value captured by every render, and every collected sample. *)
Theorem X11_every_sample_is_zero past w :
  reachable initialBlendValues past w ->
  smileDegree (cells w) = 0
  /\ Forall (fun d => d = 0) (smileDegrees (globals w))
  /\ Forall (fun r => smileDegree (state r) = 0) past.
Proof.
  induction 1 as [s|past w c r Hreach (Hcell & Hlist & Hpast) Hr
                   |past w s Hreach (Hcell & Hlist & Hpast)].
  - split; [done|]. split; [constructor|by repeat constructor].
  - assert (Hr0 : clamp01 (smileDegree (state r)) = 0).
    { rewrite Forall_forall in Hpast. by rewrite (Hpast r Hr). }
    destruct (perform_smile initialBlendValues c r w) as [Hcell' Hlist'].
    rewrite Hr0 in Hcell', Hlist'.
    assert (Hc : smileDegree (cells (exec (perform initialBlendValues c r) w)) = 0).
    { destruct Hcell' as [-> | ->]; done. }
    split; [done|]. split; [|by constructor].
    destruct Hlist' as [-> | [-> | ->]]; [done|constructor|].
    apply Forall_app. split; [done|by repeat constructor].
  - split; [done|]. split; [done|by constructor].
Qed.

End Footprints.


(** One more call in a run, the world that results given by name. *)
Lemma reachable_step initialBlendValues past w c r w' :
  reachable initialBlendValues past w ->
  r ∈ past ->
  w' = exec (perform initialBlendValues c r) w ->
  reachable initialBlendValues (render_of w' :: past) w'.
Proof. intros Hreach Hr ->. by apply reach_call. Qed.

(** That session is a run of the hook. *)
Lemma session_reached : reachable ∅ Session.renders Session.ended.
Proof.
  apply (reachable_step ∅ _ Session.second StopPrediction
           (render_of Session.second));
    [|apply list_elem_of_here|reflexivity].
  apply (reachable_step ∅ _ Session.first
           (PredictWebcam (Example.tick 2 Example.malformed))
           (render_of Session.first));
    [|apply list_elem_of_here|reflexivity].
  apply (reachable_step ∅ _ Session.begun
           (PredictWebcam (Example.tick 1 Example.halfSmile))
           (render_of Session.begun));
    [|apply list_elem_of_here|reflexivity].
  apply (reachable_step ∅ _ Pass.ready StartPrediction (render_of Pass.ready));
    [|apply list_elem_of_here|reflexivity].
  apply (reachable_step ∅ _ Pass.withVideo (EffectVideo true true)
           (render_of Pass.withVideo));
    [|apply list_elem_of_here|reflexivity].
  apply (reachable_step ∅ _ Pass.mounted (SetVideoNode 1%nat)
           (render_of Pass.mounted));
    [|apply list_elem_of_here|reflexivity].
  apply reach_init.
Qed.

(** X10 at the end of that session: stopped, and still [DOING]. *)
Lemma X10_witness :
  predictionStatus (cells Session.ended) <> DONE
  /\ Forall (fun r => predictionStatus (state r) <> DONE) Session.renders.
Proof.
  exact (X10_prediction_is_never_done ∅ Session.renders Session.ended
           session_reached).
Defined.

(** X11 at the end of that session, two frames sampled. *)
Lemma X11_witness :
  smileDegree (cells Session.ended) = 0
  /\ Forall (fun d => d = 0) (smileDegrees (globals Session.ended))
  /\ Forall (fun r => smileDegree (state r) = 0) Session.renders.
Proof.
  exact (X11_every_sample_is_zero ∅ Session.renders Session.ended
           session_reached).
Defined.

(** ** Prediction: further properties *)


Section Prediction.

Implicit Types (r : Render) (t : Tick) (w : World).

Lemma add_factor_get r bf c k :
  get (add_factor r bf c) k
  = fold_left (fun acc num => acc + num) (factor_terms r k [c]) (get bf k).
Proof.
  unfold add_factor, factor_terms. cbv zeta. simpl.
  destruct (own_key (categoryName c)) as [k'|]; simpl.
  - case_decide as Hk.
    + injection Hk as ->.
      destruct (blendValuesFromCalibration r !! categoryName c); simpl;
        [by destruct k|done].
    + destruct (blendValuesFromCalibration r !! categoryName c); simpl;
        [|done].
      destruct k, k'; done.
  - done.
Qed.

Lemma factor_terms_cons r k c cs :
  factor_terms r k (c :: cs) = factor_terms r k [c] ++ factor_terms r k cs.
Proof.
  unfold factor_terms. simpl. by destruct (decide _); [destruct (_ !! _)|].
Qed.

Lemma fold_add_factor_get r categories bf k :
  get (fold_left (add_factor r) categories bf) k
  = fold_left (fun acc num => acc + num) (factor_terms r k categories) (get bf k).
Proof.
  revert bf. induction categories as [|c cs IH]; intros bf; [done|].
  simpl fold_left at 1. rewrite IH, add_factor_get, (factor_terms_cons r k c cs).
  by rewrite fold_left_app.
Qed.

(** X12. Each blend factor of a frame is the sum, added up from [0] in
    frame order, of [score / (smile - baseline)] over the frame's
    categories of that name whose baseline entry exists: categories of the
    same name add up, and the four factors do not mix. *)
Theorem X12_blend_factor_is_a_sum_by_name r categories k :
  get (blendFactorsOf r categories) k = sum (factor_terms r k categories).
Proof.
  unfold blendFactorsOf, sum. rewrite fold_add_factor_get. by destruct k.
Qed.

(** X13. [stopPrediction] does not end anything: it leaves the samples and
    the prediction status as they are, so calling it again returns the
    same value. *)
Theorem X13_stopPrediction_can_be_repeated r w :
  let w' := exec (stopPrediction r) w in
  eval (stopPrediction r) w' = eval (stopPrediction r) w
  /\ smileDegrees (globals w') = smileDegrees (globals w)
  /\ predictionStatus (cells w') = predictionStatus (cells w)
  /\ frames (host w') = frames (host w).
Proof. hook_unfold. simpl. by hook_cases. Qed.

Lemma first_face_only l r s n ct categories rest w :
  observed (exec (sample l r (mkTick s n ct [categories])) w)
  = observed (exec (sample l r (mkTick s n ct (categories :: rest))) w).
Proof.
  destruct l; unfold sample, doCalibration, predictWebcam;
    cbn [detected serviceLandmarker now currentTime];
    destruct s, (video (state r)) as [v|]; try reflexivity.
  all: unfold observed, exec.
  all: cbn - [strict_neq].
  all: destruct (strict_neq (lastVideoTime (globals w)) ct); [|reflexivity].
  all: cbn.
  all: try reflexivity.
  all: destruct (decide (calibrationStatus (state r) = DOING)); reflexivity.
Qed.

(** X14. Both loops use the first face alone: what the detector returns
    after [faceBlendshapes[0]] changes nothing of what a sampling call
    does to the module variables, the cells, the store, the refs, the
    pending requests and the detector calls. *)
Theorem X14_only_the_first_face_counts l r t w :
  let first := mkTick (serviceLandmarker t) (now t) (currentTime t)
                 (take 1 (detected t)) in
  let w1 := exec (sample l r first) w in
  let w' := exec (sample l r t) w in
  globals w1 = globals w' /\ cells w1 = cells w' /\ store w1 = store w'
  /\ refs w1 = refs w' /\ frames (host w1) = frames (host w')
  /\ detectCalls (host w1) = detectCalls (host w').
Proof.
  destruct t as [s n ct d]. destruct d as [|categories rest].
  - cbn [take detected serviceLandmarker now currentTime]. by repeat apply conj.
  - cbn [take detected serviceLandmarker now currentTime].
    pose proof (first_face_only l r s n ct categories rest w) as H.
    unfold observed in H. by simplify_eq.
Qed.

End Prediction.

(** ** Teardown *)

(** X15. The cleanup of the video effect cancels the pending requests
    whose handles the two refs hold, and nothing else: every other pending
    request stays, no timer is cancelled, and the refs, the cells and the
    module variables are as before. *)
Theorem X15_cleanup_cancels_what_the_refs_name r w v :
  video (state r) = Some v ->
  let w' := exec (cleanup_video r) w in
  (forall e,
     e ∈ frames (host w')
     <-> e ∈ frames (host w)
         /\ ~ names (calibrateRequestRef (refs w)) e.1
         /\ ~ names (predictRequestRef (refs w)) e.1)
  /\ timeouts (host w') = timeouts (host w)
  /\ refs w' = refs w
  /\ cells w' = cells w
  /\ globals w' = globals w.
Proof.
  intros Hv. split.
  - intros e. by apply (cleanup_video_pending ∅ r w v).
  - hook_unfold. rewrite Hv. simpl.
    destruct (calibrateRequestRef (refs w)) as [[|c]|]; simpl;
      destruct (predictRequestRef (refs w)) as [[|p]|]; simpl; done.
Qed.

(** X15 on the world of [Teardown]: the request the ref names is
    cancelled, the earlier one, which it does not name, stays, and so does
    the timer of the pass. *)
Lemma X15_witness :
  let w := Teardown.rerendered in
  let w' := exec (cleanup_video (render_of w)) w in
  (forall e,
     e ∈ frames (host w')
     <-> e ∈ frames (host w)
         /\ ~ names (calibrateRequestRef (refs w)) e.1
         /\ ~ names (predictRequestRef (refs w)) e.1)
  /\ timeouts (host w') = timeouts (host w)
  /\ refs w' = refs w
  /\ cells w' = cells w
  /\ globals w' = globals w.
Proof.
  exact (X15_cleanup_cancels_what_the_refs_name
           (render_of Teardown.rerendered) Teardown.rerendered 1%nat eq_refl).
Defined.

(** ** From an empty pass to prediction *)

Section EmptyPass.

Variable initialBlendValues : Profile.

(** There is one NaN. *)
Lemma is_nan_eq x : is_nan x = true -> x = nan.
Proof.
  rewrite is_nan_spec. intros Hx. apply Prim2SF_inj.
  by destruct (Prim2SF x) as [[]|[]| |[] ? ?].
Qed.

Lemma sub_nan x : x - nan = nan.
Proof.
  apply Prim2SF_inj. rewrite FloatAxioms.sub_spec. unfold SF64sub.
  by destruct (Prim2SF x) as [[]|[]| |[] ? ?].
Qed.

Lemma div_nan x : x / nan = nan.
Proof.
  apply Prim2SF_inj. rewrite FloatAxioms.div_spec. unfold SF64div.
  by destruct (Prim2SF x) as [[]|[]| |[] ? ?].
Qed.

Lemma add_nan x : x + nan = nan.
Proof.
  apply Prim2SF_inj. rewrite FloatAxioms.add_spec. unfold SF64add.
  by destruct (Prim2SF x) as [[]|[]| |[] ? ?].
Qed.

Lemma nan_add x : nan + x = nan.
Proof.
  apply Prim2SF_inj. rewrite FloatAxioms.add_spec. unfold SF64add.
  by destruct (Prim2SF x) as [[]|[]| |[] ? ?].
Qed.

Lemma fold_add_nan xs :
  fold_left (fun acc num => acc + num) xs nan = nan.
Proof. induction xs as [|x xs IH]; [done|]. simpl. by rewrite nan_add. Qed.

(** Once a term is NaN the sum is. *)
Lemma fold_add_with_nan xs acc :
  nan ∈ xs -> fold_left (fun acc num => acc + num) xs acc = nan.
Proof.
  revert acc. induction xs as [|x xs IH]; intros acc Hin.
  - by apply elem_of_nil in Hin.
  - apply elem_of_cons in Hin as [<- | Hin]; simpl.
    + by rewrite add_nan, fold_add_nan.
    + by apply IH.
Qed.

(** X16. A pass in which no frame was sampled spoils prediction: when
    [stopCalibration] follows [startCalibration] directly in [NEUTRAL]
    mode, the baseline profile holds NaN under the four names, and in
    every render that reads this baseline each blend factor that a later
    frame has a category for is NaN. *)
Theorem X16_empty_pass_gives_nan_factors r0 v r w r' categories c k :
  video (state r0) = Some v ->
  calibrationStatusFromStore r = NEUTRAL ->
  let w' := exec (stopCalibration initialBlendValues r)
              (exec (startCalibration r0) w) in
  blendValuesFromCalibration r' = blendValues (store w') ->
  c ∈ categories ->
  own_key (categoryName c) = Some k ->
  blendValues (store w') !! key_name k = Some nan
  /\ get (blendFactorsOf r' categories) k = nan.
Proof.
  intros Hv Hmode w' Hread Hc Hk.
  assert (Hnan : forall k', blendValues (store w') !! key_name k' = Some nan).
  { intros k'.
    destruct (stopCalibration_done initialBlendValues r
                (exec (startCalibration r0) w)) as (_ & _ & Hw). unfold written in Hw. fold w' in Hw.
    rewrite decide_True in Hw by done. rewrite Hw, store_average_lookup.
    assert (Hempty : calibrationBlendValues
                       (globals (exec (startCalibration r0) w)) = emptySamples).
    { hook_unfold. by rewrite Hv. }
    rewrite Hempty. by destruct k'. }
  split; [done|].
  unfold blendFactorsOf. rewrite fold_add_factor_get.
  apply fold_add_with_nan. unfold factor_terms.
  apply list_elem_of_omap. exists c. split; [done|].
  rewrite decide_True by done.
  assert (Hname : categoryName c = key_name k).
  { unfold own_key in Hk. repeat case_decide; by simplify_eq. }
  rewrite Hread, Hname, Hnan. by rewrite sub_nan, div_nan.
Qed.

End EmptyPass.

(** X16 on the example: started and stopped at once in [NEUTRAL] mode,
    then the half smile. *)
Lemma X16_witness :
  let r := mkRender (state (Example.attached READY READY))
             (mkStore Example.neutral Example.smiling NEUTRAL) in
  let w' := exec (stopCalibration ∅ r)
              (exec (startCalibration r) (initialWorld Example.calibrated)) in
  blendValues (store w') !! key_name MouthSmileLeft = Some nan
  /\ get (blendFactorsOf (render_of w') Example.halfSmile) MouthSmileLeft = nan.
Proof.
  intros r.
  refine (X16_empty_pass_gives_nan_factors ∅ r 1%nat r
            (initialWorld Example.calibrated)
            (render_of (exec (stopCalibration ∅ r)
               (exec (startCalibration r) (initialWorld Example.calibrated))))
            Example.halfSmile
            (mkCategory "mouthSmileLeft" 0.5) MouthSmileLeft
            eq_refl eq_refl eq_refl _ eq_refl).
  unfold Example.halfSmile.
  repeat first [apply list_elem_of_here | apply list_elem_of_further].
Defined.
